(** * Gitlab-Export-Import: a shallow embedding of [gitlab_export_import.py]

    The orchestrator class [GitlabImportExport] is embedded as monadic code
    over an explicit state (the object's mutable field, the local file
    system and the sequence of observable events).  The remote GitLab
    instance is an external collaborator: it is represented by the replies
    it gives to each call of the client library.  Exceptions are values of
    the result type, so that an uncaught exception is a result of the run.

    [logging.debug] calls are left out (they only format values that are
    already at hand); every other logging call is an event. *)

From Stdlib Require Import ZArith Ascii String List.
From Stdlib Require Import Floats.SpecFloat.
From stdpp Require Import gmap strings list fin_maps pretty.

Local Open Scope Z_scope.

(** ** Python values *)

(** The values that occur as attributes of API objects and in the JSON
    metadata files. *)
Inductive pyval :=
| PyNone
| PyBool (b : bool)
| PyInt (n : Z)
| PyStr (s : string).

(** [str(v)], also what an f-string substitutes. *)
Definition py_str (v : pyval) : string :=
  match v with
  | PyNone => "None"
  | PyBool true => "True"
  | PyBool false => "False"
  | PyInt n => pretty n
  | PyStr s => s
  end.

(** Truth value of a value used as a condition. *)
Definition truthy (v : pyval) : bool :=
  match v with
  | PyNone => false
  | PyBool b => b
  | PyInt n => negb (n =? 0)
  | PyStr s => negb (String.eqb s "")
  end.

(** [v != 'finished'] is false exactly for the string ["finished"]. *)
Definition is_finished (v : pyval) : bool :=
  match v with
  | PyStr s => String.eqb s "finished"
  | _ => false
  end.

(** An API object ([Group], [Project], an export or import job) or a JSON
    dictionary: its attributes by name. *)
Abbreviation Obj := (gmap string pyval).

(** A path is the sequence of its components below the working directory
    (drives and roots are not modelled: the paths of a run all lie below the
    export folder). *)
Abbreviation Path := (list string).

(** ** Exceptions *)

Inductive exn :=
| GitlabError (error_message : string)
| GitlabGetError (error_message : string)   (* subclass of GitlabError *)
| RuntimeError (msg : string)
| AssertionError (msg : string)
| AttributeError (attr : string)
| KeyError (key : string)
| ValueError (msg : string)
| StopIteration
| FileNotFoundError (p : Path)
| JSONDecodeError (p : Path)
| OtherError (msg : string).

Definition is_GitlabError (e : exn) : bool :=
  match e with
  | GitlabError _ | GitlabGetError _ => true
  | _ => false
  end.

Definition is_GitlabGetError (e : exn) : bool :=
  match e with
  | GitlabGetError _ => true
  | _ => false
  end.

(** Every exception of the model derives from [Exception]. *)
Definition is_Exception (e : exn) : bool := true.

Definition error_message (e : exn) : string :=
  match e with
  | GitlabError m | GitlabGetError m => m
  | _ => ""
  end.

(** ** Strings and paths *)

Inductive flavour := Posix | Windows.

Definition slash : ascii := "/"%char.
Definition backslash : ascii := "\"%char.

(** [os.sep] *)
Definition sep (fl : flavour) : ascii :=
  match fl with Posix => slash | Windows => backslash end.

(** The characters [pathlib] splits a path string at. *)
Definition is_sep (fl : flavour) (c : ascii) : bool :=
  match fl with
  | Posix => Ascii.eqb c slash
  | Windows => Ascii.eqb c slash || Ascii.eqb c backslash
  end.

(** Segments of [s] between separators. *)
Fixpoint split (fl : flavour) (s : string) : list string :=
  match s with
  | EmptyString => [EmptyString]
  | String c s' =>
      if is_sep fl c then EmptyString :: split fl s'
      else match split fl s' with
           | [] => [String c EmptyString]
           | h :: t => String c h :: t
           end
  end.

Definition is_part (x : string) : bool :=
  negb (String.eqb x "") && negb (String.eqb x ".").

(** [Path(s)]: empty segments and ["."] segments are dropped. *)
Definition Path_of (fl : flavour) (s : string) : Path :=
  filter (fun x => Is_true (is_part x)) (split fl s).

Fixpoint join (c : ascii) (l : list string) : string :=
  match l with
  | [] => ""
  | [x] => x
  | x :: l' => x +:+ String c (join c l')
  end.

(** [str(p)]: the empty path prints as ["."]. *)
Definition path_str (fl : flavour) (p : Path) : string :=
  match p with
  | [] => "."
  | _ => join (sep fl) p
  end.

(** [p.joinpath(s)] for a string [s] *)
Definition joinpath (fl : flavour) (p : Path) (s : string) : Path :=
  p ++ Path_of fl s.

(** [p.name] *)
Definition name (p : Path) : string := List.last p "".

(** [p.with_name(n)] *)
Definition with_name (p : Path) (n : string) : exn + Path :=
  match p with
  | [] => inl (ValueError "has an empty name")
  | _ => inr (removelast p ++ [n])
  end.

(** [p.relative_to(base)] *)
Fixpoint relative_to (p base : Path) : exn + Path :=
  match base, p with
  | [], _ => inr p
  | b :: base', x :: p' =>
      if String.eqb b x then relative_to p' base'
      else inl (ValueError "is not in the subpath")
  | _ :: _, [] => inl (ValueError "is not in the subpath")
  end.

(** [os.path.join(a, b)] for a relative name [b] *)
Definition os_path_join (fl : flavour) (a b : string) : string :=
  a +:+ String (sep fl) b.

(** [s.replace(a, b)] for one-character strings *)
Fixpoint replace (a b : ascii) (s : string) : string :=
  match s with
  | EmptyString => EmptyString
  | String c s' => String (if Ascii.eqb c a then b else c) (replace a b s')
  end.

(** Lower-casing, as [os.path.normcase] does on Windows. *)
Definition lower (c : ascii) : ascii :=
  let n := nat_of_ascii c in
  if (65 <=? n)%nat && (n <=? 90)%nat then ascii_of_nat (n + 32) else c.

Definition normcase (fl : flavour) (s : string) : list ascii :=
  match fl with
  | Posix => list_ascii_of_string s
  | Windows => map lower (list_ascii_of_string (replace slash backslash s))
  end.

(** What [fnmatch] translates a pattern to.  Every piece but [STAR] stands
    for one character; a bracket stands for the characters of a set, given
    by single characters and ranges, or for the others when it is negated. *)
Inductive item :=
| single (c : ascii)
| range (lo hi : ascii).

Inductive piece :=
| STAR
| ANY
| LIT (c : ascii)
| SET (negated : bool) (members : list item).

(** The index of the first [c] in [s]. *)
Fixpoint index_of (c : ascii) (s : list ascii) : option nat :=
  match s with
  | [] => None
  | d :: s' => if Ascii.eqb d c then Some O else S <$> index_of c s'
  end.

(** For the text [p] after a ['[']: the index of the [']'] that closes the
    bracket.  A ['!'] and then a [']'] that come first do not close it. *)
Definition closing (p : list ascii) : option nat :=
  let j := match p with
           | c :: _ => if Ascii.eqb c "!" then 1%nat else 0%nat
           | [] => 0%nat
           end in
  let j := match drop j p with
           | c :: _ => if Ascii.eqb c "]" then S j else j
           | [] => j
           end in
  (fun k => (j + k)%nat) <$> index_of "]" (drop j p).

(** The chunks of a bracket's text: it is cut at every ['-'] that can be the
    sign of a range ([skip] characters are passed over first; [acc] is the
    chunk so far, reversed).  A ['-'] at the very end stays in its chunk. *)
Fixpoint chunks (skip : nat) (acc : list ascii) (s : list ascii) : list (list ascii) :=
  match s with
  | [] => [rev acc]
  | c :: s' =>
      match skip with
      | S n => chunks n (c :: acc) s'
      | O =>
          if Ascii.eqb c "-" then
            match s' with
            | [] => [rev (c :: acc)]
            | _ => rev acc :: chunks 2 [] s'
            end
          else chunks 0 (c :: acc) s'
      end
  end.

(** [a > b] on characters *)
Definition above (a b : ascii) : bool := (nat_of_ascii b <? nat_of_ascii a)%nat.

(** Empty ranges are removed, from the right: the two chunks around one are
    joined, without the ends of the range. *)
Fixpoint drop_empty_ranges (cs : list (list ascii)) : list (list ascii) :=
  match cs with
  | [] => []
  | x :: cs' =>
      match drop_empty_ranges cs' with
      | [] => [x]
      | y :: rest =>
          match List.last (map Some x) None, y with
          | Some lo, hi :: y' =>
              if above lo hi then (removelast x ++ y') :: rest else x :: y :: rest
          | _, _ => x :: y :: rest
          end
      end
  end.

(** The members of the set written by the chunks [x :: cs]: between two
    chunks lies the range from the last character of the one to the first
    of the other.  (After a first chunk that is empty, the ['-'] is a
    character of the set.) *)
Fixpoint members_of (x : list ascii) (cs : list (list ascii)) : list item :=
  match cs with
  | [] => map single x
  | y :: cs' =>
      match List.last (map Some x) None, y with
      | Some lo, hi :: y' => map single (removelast x) ++ range lo hi :: members_of y' cs'
      | _, _ => map single x ++ single "-" :: members_of y cs'
      end
  end.

(** The bracket with text [stuff]: a ['!'] at the head of what is left after
    the empty ranges are removed negates the set. *)
Definition bracket (stuff : list ascii) : piece :=
  let neg := match stuff with c :: _ => Ascii.eqb c "!" | [] => false end in
  let cs := if existsb (Ascii.eqb "-") stuff
            then drop_empty_ranges (chunks (if neg then 2 else 1) [] stuff)
            else [stuff] in
  match cs with
  | [] => SET false []
  | x :: cs' =>
      match x with
      | c :: x' =>
          if Ascii.eqb c "!" then SET true (members_of x' cs')
          else SET false (members_of x cs')
      | [] => SET false (members_of x cs')
      end
  end.

(** [fnmatch.translate(pat)]: [*], [?] and a bracket that closes are
    special, every other character stands for itself.  ([skip] characters,
    those of a bracket already translated, are passed over first.) *)
Fixpoint translate_from (skip : nat) (pat : list ascii) : list piece :=
  match pat with
  | [] => []
  | c :: p =>
      match skip with
      | S n => translate_from n p
      | O =>
          if Ascii.eqb c "*" then STAR :: translate_from 0 p
          else if Ascii.eqb c "?" then ANY :: translate_from 0 p
          else if Ascii.eqb c "[" then
            match closing p with
            | Some j => bracket (take j p) :: translate_from (S j) p
            | None => LIT c :: translate_from 0 p
            end
          else LIT c :: translate_from 0 p
      end
  end.

Definition translate (pat : list ascii) : list piece := translate_from 0 pat.

Definition holds (c : ascii) (i : item) : bool :=
  match i with
  | single d => Ascii.eqb d c
  | range lo hi => negb (above lo c) && negb (above c hi)
  end.

(** Whether [c] is a character that the piece [p] stands for. *)
Definition fits (p : piece) (c : ascii) : bool :=
  match p with
  | STAR | ANY => true
  | LIT d => Ascii.eqb d c
  | SET negated its => xorb negated (existsb (holds c) its)
  end.

(** Matching of the whole of [s] against a translated pattern. *)
Fixpoint wild (pat : list piece) (s : list ascii) : bool :=
  match pat with
  | [] => match s with [] => true | _ => false end
  | STAR :: pat' =>
      (fix star (s : list ascii) : bool :=
         wild pat' s || match s with [] => false | _ :: s' => star s' end) s
  | p :: pat' =>
      match s with
      | [] => false
      | d :: s' => fits p d && wild pat' s'
      end
  end.

(** [fnmatch(name, pat)] *)
Definition fnmatch (fl : flavour) (name pat : string) : bool :=
  wild (translate (normcase fl pat)) (normcase fl name).

(** ** Events, the remote instance and the state *)

Inductive level := INFO | WARNING | ERROR.

(** What a file holds: the bytes of an archive, or a JSON dictionary. *)
Inductive content :=
| Bytes (data : string)
| Json (d : Obj).

(** The calls of the client library that reach the remote instance. *)
Inductive api_call :=
| groups_get (key : pyval)
| projects_get (key : pyval)
| group_exports_create (group : Obj)
| group_export_download (group : Obj)
| group_projects_list (group : Obj)
| group_subgroups_list (group : Obj)
| project_exports_create (project : Obj)
| project_export_refresh (project : Obj)
| project_export_download (project : Obj)
| projects_import_project (file : content) (name path : pyval) (namespace : string)
| project_imports_get (import_id : pyval)
| project_import_refresh (import_id : pyval)
| groups_import_group (file : content) (path name : pyval) (parent_id : pyval).

Inductive event :=
| Log (lv : level) (fmt : string) (args : list pyval)
| Sleep (secs : spec_float)
| Api (c : api_call).

(** The replies of the remote instance.  A status fetch is indexed by the
    number of fetches made before it on the same job. *)
Record Gitlab := {
  gl_groups_get : pyval -> exn + Obj;
  gl_projects_get : pyval -> exn + Obj;
  gl_group_exports_create : Obj -> exn + Obj;
  gl_group_export_download : Obj -> exn + string;
  gl_group_projects_list : Obj -> exn + list Obj;
  gl_group_subgroups_list : Obj -> exn + list Obj;
  gl_project_exports_create : Obj -> exn + Obj;
  gl_project_export_refresh : Obj -> nat -> exn + Obj;
  gl_project_export_download : Obj -> exn + string;
  gl_projects_import_project : content -> pyval -> pyval -> string -> exn + Obj;
  gl_project_imports_get : pyval -> nat -> exn + Obj;
  gl_groups_import_group : content -> pyval -> pyval -> pyval -> exn + unit
}.

Record filesys := {
  dirs : gset Path;
  files : gmap Path content
}.

Record GitlabImportExport := {
  gl : Gitlab;
  delay_seconds : spec_float;
  export_folder : Path
}.

Record state := {
  self : GitlabImportExport;
  fs : filesys;
  trace : list event
}.

Definition METADATA_FILENAME : string := "metadata.json".
Definition FILENAME_PATTERN_GROUP : string := "group_*.tar.gz".
Definition FILENAME_PATTERN_PROJECT : string := "project_*.tar.gz".

(** ** The monad of the embedding *)

(** [OutOfFuel] is the result of a run that was cut off: the polling loops
    have no bound in the source. *)
Inductive result (A : Type) :=
| Val (a : A)
| Exn (e : exn)
| OutOfFuel.
Arguments Val {A} a.
Arguments Exn {A} e.
Arguments OutOfFuel {A}.

Definition M (A : Type) : Type := state -> result A * state.

Definition ret {A} (a : A) : M A := fun s => (Val a, s).

Definition bind {A B} (m : M A) (k : A -> M B) : M B :=
  fun s =>
    match m s with
    | (Val a, s') => k a s'
    | (Exn e, s') => (Exn e, s')
    | (OutOfFuel, s') => (OutOfFuel, s')
    end.

Definition raise {A} (e : exn) : M A := fun s => (Exn e, s).

Definition out_of_fuel {A} : M A := fun s => (OutOfFuel, s).

(** [try: m  except E as ex: h ex] where [E] is given by [catches] *)
Definition try_except {A} (m : M A) (catches : exn -> bool) (h : exn -> M A) : M A :=
  fun s =>
    match m s with
    | (Exn e, s') => if catches e then h e s' else (Exn e, s')
    | r => r
    end.

Declare Scope py_scope.
Delimit Scope py_scope with py.
Notation "x <- m ;; k" := (bind m (fun x => k))
  (at level 100, m at next level, right associativity) : py_scope.
Notation "m ;; k" := (bind m (fun _ => k))
  (at level 100, right associativity) : py_scope.
Local Open Scope py_scope.

Definition lift {A} (r : exn + A) : M A :=
  match r with
  | inl e => raise e
  | inr a => ret a
  end.

Definition get_self : M GitlabImportExport := fun s => (Val (self s), s).

Definition set_export_folder (p : Path) : M unit :=
  fun s => (Val tt,
            {| self := {| gl := gl (self s); delay_seconds := delay_seconds (self s);
                          export_folder := p |};
               fs := fs s; trace := trace s |}).

Definition get_fs : M filesys := fun s => (Val (fs s), s).

Definition put_fs (f : filesys) : M unit :=
  fun s => (Val tt, {| self := self s; fs := f; trace := trace s |}).

Definition emit (e : event) : M unit :=
  fun s => (Val tt, {| self := self s; fs := fs s; trace := trace s ++ [e] |}).

Definition log (lv : level) (fmt : string) (args : list pyval) : M unit :=
  emit (Log lv fmt args).

(** [sleep(secs)] *)
Definition sleep (secs : spec_float) : M unit := emit (Sleep secs).

(** A call to the remote instance: the call is recorded, then its reply is
    returned or raised. *)
Definition call {A} (c : api_call) (reply : Gitlab -> exn + A) : M A :=
  me <- get_self ;;
  emit (Api c) ;;
  lift (reply (gl me)).

(** [getattr(obj, key)] *)
Definition getattr (obj : Obj) (key : string) : M pyval :=
  match obj !! key with
  | Some v => ret v
  | None => raise (AttributeError key)
  end.

(** [d[key]] *)
Definition getitem (d : Obj) (key : string) : M pyval :=
  match d !! key with
  | Some v => ret v
  | None => raise (KeyError key)
  end.

(** ** The file system *)

(** [p.exists()] *)
Definition exists_ (f : filesys) (p : Path) : bool :=
  bool_decide (p ∈ dirs f) || bool_decide (is_Some (files f !! p)).

(** [p.open("w")] / [p.open("wb")]: the file is created empty, or truncated;
    its directory has to exist. *)
Definition open_write (p : Path) : M unit :=
  f <- get_fs ;;
  if bool_decide (removelast p ∈ dirs f) then
    put_fs {| dirs := dirs f; files := <[p := Bytes ""]> (files f) |}
  else raise (FileNotFoundError p).

(** writing to an open file *)
Definition write (p : Path) (c : content) : M unit :=
  f <- get_fs ;;
  put_fs {| dirs := dirs f; files := <[p := c]> (files f) |}.

(** [p.open("r")] / [p.open("rb")] and reading the whole file *)
Definition open_read (p : Path) : M content :=
  f <- get_fs ;;
  match files f !! p with
  | Some c => ret c
  | None => raise (FileNotFoundError p)
  end.

Fixpoint prefixes (p : Path) : list Path :=
  match p with
  | [] => [[]]
  | x :: p' => [] :: map (cons x) (prefixes p')
  end.

(** [os.makedirs(p, exist_ok=True)] *)
Definition makedirs (p : Path) : M unit :=
  f <- get_fs ;;
  put_fs {| dirs := list_to_set (prefixes p) ∪ dirs f; files := files f |}.

(** The names of the files that lie directly in directory [d]. *)
Definition files_in (f : filesys) (d : Path) : list string :=
  map name (filter (fun p => removelast p = d ∧ p ≠ []) (map fst (map_to_list (files f)))).

(** The names of the entries (files and directories) directly in [d]. *)
Definition entries_in (f : filesys) (d : Path) : list string :=
  files_in f d ++
  map name (filter (fun p => removelast p = d ∧ p ≠ []) (elements (dirs f))).

(** Directory [top ++ rel] is reached from [top] when every directory on the
    way exists. *)
Definition reached (f : filesys) (top rel : Path) : bool :=
  forallb (fun r => bool_decide (top ++ r ∈ dirs f)) (prefixes rel).

(** The string [os.walk] builds for the directory at [rel] below [top]. *)
Definition walk_root (fl : flavour) (top : string) (rel : Path) : string :=
  fold_left (os_path_join fl) rel top.

(** [os.walk(top)]: for every directory of the tree at [top], its path string
    and the names of its files.  (The order of the directories is the file
    system's; nothing below depends on it.) *)
Definition walk (fl : flavour) (f : filesys) (top : Path) : list (string * list string) :=
  omap (fun d =>
          match relative_to d top with
          | inr rel =>
              if reached f top rel
              then Some (walk_root fl (path_str fl top) rel, files_in f d)
              else None
          | inl _ => None
          end)
       (elements (dirs f)).

(** [glob.has_magic(s)] *)
Definition has_magic (s : string) : bool :=
  existsb (fun c => Ascii.eqb c "*" || Ascii.eqb c "?" || Ascii.eqb c "[")
          (list_ascii_of_string s).

(** [glob._ishidden(s)] *)
Definition _ishidden (s : string) : bool :=
  match s with
  | String c _ => Ascii.eqb c "."
  | EmptyString => false
  end.

(** The names of the directories directly in [d]. *)
Definition subdirs_in (f : filesys) (d : Path) : list string :=
  map name (filter (fun p => removelast p = d ∧ p ≠ []) (elements (dirs f))).

(** [glob._listdir(d, dironly)] *)
Definition _listdir (f : filesys) (d : Path) (dironly : bool) : list string :=
  if dironly then subdirs_in f d else entries_in f d.

(** [glob._glob1(d, pattern, dironly)]: the names in [d] that match; a name
    with a leading dot is left out unless the pattern has one. *)
Definition _glob1 (fl : flavour) (f : filesys) (d : Path) (pattern : string)
    (dironly : bool) : list string :=
  let names := _listdir f d dironly in
  let names := if negb (_ishidden pattern)
               then filter (fun x => Is_true (negb (_ishidden x))) names
               else names in
  filter (fun n => Is_true (fnmatch fl n pattern)) names.

(** [glob._glob0(d, basename)]: a name without magic only has to exist. *)
Definition _glob0 (f : filesys) (d : Path) (basename : string) : list string :=
  if exists_ f (d ++ [basename]) then [basename] else [].

(** The inner loop of [glob._iglob]: the paths in [d] for [basename]. *)
Definition glob_in_dir (fl : flavour) (f : filesys) (dironly : bool)
    (basename : string) (d : Path) : list Path :=
  map (fun n => d ++ [n])
      (if has_magic basename then _glob1 fl f d basename dironly
       else _glob0 f d basename).

(** [glob._iglob(dirname, dironly=True)] for a directory path that has magic
    somewhere; [rdir] holds its components, the last one first.  The part of
    the path before the first component with magic is taken as it is. *)
Fixpoint _iglob (fl : flavour) (f : filesys) (rdir : list string) : list Path :=
  match rdir with
  | [] => [[]]
  | basename :: rdir' =>
      let dirs := if existsb has_magic rdir' then _iglob fl f rdir' else [rev rdir'] in
      flat_map (glob_in_dir fl f true basename) dirs
  end.

(** [iglob(str(d.joinpath(pat).resolve()))]: the whole path string is the
    pattern, so that a component of [d] with [*], [?] or [[] in it is matched
    against the directories that exist and does not name itself.  The path of
    the working directory, which [resolve] puts in front, is taken to have
    no such character. *)
Definition iglob (fl : flavour) (f : filesys) (d : Path) (pat : string) : list Path :=
  let dirs := if existsb has_magic d then _iglob fl f (rev d) else [d] in
  flat_map (glob_in_dir fl f false pat) dirs.

(** [next(it)] *)
Definition next {A} (it : list A) : M A :=
  match it with
  | x :: _ => ret x
  | [] => raise StopIteration
  end.

(** [for x in l: body x] *)
Fixpoint for_each {A} (l : list A) (body : A -> M unit) : M unit :=
  match l with
  | [] => ret tt
  | x :: l' => body x ;; for_each l' body
  end.

(** A value used where the library needs a [str] (a path component, a
    lookup key): other values raise [TypeError]. *)
Definition as_str (v : pyval) : M string :=
  match v with
  | PyStr s => ret s
  | _ => raise (OtherError "TypeError")
  end.

(** Truth value of the optional command-line argument [--root]. *)
Definition given (gitlab_root : option string) : bool :=
  match gitlab_root with
  | Some r => negb (String.eqb r "")
  | None => false
  end.

(** The float [1.0] in its canonical binary64 form. *)
Definition one : spec_float := S754_finite false 4503599627370496 (-52).

(** ** The class [GitlabImportExport] *)

Section Orchestrator.

(** The host's path convention. *)
Variable fl : flavour.

Definition __init__ (g : Gitlab) (folder : Path) (delay : spec_float)
  : exn + GitlabImportExport :=
  if SFleb one delay
  then inr {| gl := g; delay_seconds := delay; export_folder := folder |}
  else inl (AssertionError "Delay between download checks must be a meaningful duration!").

(** *** Helpers *)

Definition get_project (path_with_namespace : string) : M (option Obj) :=
  try_except
    (p <- call (projects_get (PyStr path_with_namespace))
               (fun g => gl_projects_get g (PyStr path_with_namespace)) ;;
     ret (Some p))
    is_GitlabGetError
    (fun _ => ret None).

Definition get_group (gitlab_path : string) : M (option Obj) :=
  try_except
    (g <- call (groups_get (PyStr gitlab_path))
               (fun g => gl_groups_get g (PyStr gitlab_path)) ;;
     ret (Some g))
    is_GitlabGetError
    (fun _ => ret None).

(** *** Internal *)

Definition __get_filepath_group_metadata (path : Path) : Path :=
  joinpath fl path METADATA_FILENAME.

Definition __get_filepath_project_metadata (path : Path) : exn + Path :=
  with_name path (name path +:+ ".json").

Definition __check_is_export_folder (path : Path) : M unit :=
  f <- get_fs ;;
  if negb (exists_ f (__get_filepath_group_metadata path))
  then raise (RuntimeError ("Path has no metadata file '" +:+ METADATA_FILENAME +:+ "'!"))
  else ret tt.

Definition __get_group_exportfile (path : Path) : M Path :=
  f <- get_fs ;;
  next (iglob fl f path "group_*.tar.gz").

Definition metadata_keys : list string :=
  ["id"; "parent_id"; "created_at"; "name"; "full_name"; "path"; "full_path"].

(** The loop over [metadata_keys]: a key the object lacks is skipped (the
    [AttributeError] of [getattr] is caught and passed). *)
Definition collect_metadata (obj : Obj) : Obj :=
  foldl (fun metadata key =>
           match obj !! key with
           | Some v => <[key := v]> metadata
           | None => metadata
           end) ∅ metadata_keys.

Definition _write_metadata_file (obj : Obj) (filepath : Path) : M unit :=
  let metadata := collect_metadata obj in
  (if bool_decide (is_Some (metadata !! "name")) then ret tt
   else raise (AssertionError "")) ;;
  (if bool_decide (is_Some (metadata !! "path")) then ret tt
   else raise (AssertionError "")) ;;
  open_write filepath ;;
  write filepath (Json metadata).

Definition _read_metadata_file (filepath : Path) : M Obj :=
  c <- open_read filepath ;;
  match c with
  | Json d => ret d
  | Bytes _ => raise (JSONDecodeError filepath)
  end.

(** *** Export *)

(** [exporter.refresh()]: the job's attributes are fetched anew; [n] status
    fetches were made on this job before. *)
Definition export_refresh (project : Obj) (n : nat) : M Obj :=
  call (project_export_refresh project)
       (fun g => gl_project_export_refresh g project n).

(** The loop [while exporter and exporter.export_status != 'finished'].
    The job object is always true as a condition. *)
Fixpoint export_wait (fuel : nat) (project exporter : Obj) (n : nat) : M Obj :=
  st <- getattr exporter "export_status" ;;
  if is_finished st then ret exporter
  else match fuel with
       | O => out_of_fuel
       | S fuel' =>
           me <- get_self ;;
           sleep (delay_seconds me) ;;
           exporter' <- export_refresh project n ;;
           export_wait fuel' project exporter' (S n)
       end.

(** The end of [export_project], from the download on: what a project
    goes through once its export job is finished. *)
Definition export_project_download (project : Obj) (output_path : Path) : M unit :=
  (* project.path is just the plain single path-component, not the full_path *)
  pth <- getattr project "path" ;;
  let output_filepath_project :=
    joinpath fl output_path ("project_" +:+ py_str pth +:+ ".tar.gz") in
  pth <- getattr project "path" ;;
  log INFO "Downloading export for '%s': %s"
      [pth; PyStr (path_str fl output_filepath_project)] ;;
  try_except
    (open_write output_filepath_project ;;
     data <- call (project_export_download project)
                  (fun g => gl_project_export_download g project) ;;
     write output_filepath_project (Bytes data) ;;
     pth <- getattr project "path" ;;
     log INFO "Download finished for '%s'" [pth])
    is_Exception
    (fun ex => log ERROR "Problem while downloading: %s" [PyStr (error_message ex)]) ;;
  (* create project metadata file *)
  metadata_path <- lift (__get_filepath_project_metadata output_filepath_project) ;;
  _write_metadata_file project metadata_path.

(** Export a project and download it to the filesystem. *)
Definition export_project (fuel : nat) (project : Obj) (output_path : option Path)
  : M unit :=
  me <- get_self ;;
  let output_path :=
    match output_path with Some p => p | None => export_folder me end in
  pwn <- getattr project "path_with_namespace" ;;
  id <- getattr project "id" ;;
  nm <- getattr project "name" ;;
  log INFO "Project export for '%s' (%d, '%s')..." [pwn; id; nm] ;;
  (* initiate the export process *)
  created <-
    try_except
      (_ <- call (project_exports_create project)
                 (fun g => gl_project_exports_create g project) ;;
       (* a first refresh() is needed to fill the exporter object *)
       exporter <- export_refresh project 0 ;;
       ret (Some exporter))
      is_GitlabError
      (fun ex =>
         pth <- getattr project "path" ;;
         log ERROR "Problem creating export for '%s': %s" [pth; PyStr (error_message ex)] ;;
         ret None) ;;
  match created with
  | None => ret tt
  | Some exporter =>
      (* wait till the download is ready *)
      waited <-
        try_except
          (exporter' <- export_wait fuel project exporter 1 ;;
           ret (Some exporter'))
          is_GitlabError
          (fun ex =>
             pth <- getattr project "path" ;;
             log ERROR "Problem getting status for '%s': %s"
                 [pth; PyStr (error_message ex)] ;;
             ret None) ;;
      match waited with
      | None => ret tt
      | Some _ => export_project_download project output_path
      end
  end.

Definition _export_group (gitlab_path : string) : M Obj :=
  found <- get_group gitlab_path ;;
  match found with
  | None => raise (RuntimeError ("No such group: " +:+ gitlab_path))
  | Some group =>
      nm <- getattr group "name" ;;
      pth <- getattr group "path" ;;
      log INFO "Creating group export for '%s' (path '%s') ..." [nm; pth] ;;
      exporter <-
        try_except
          (e <- call (group_exports_create group)
                     (fun g => gl_group_exports_create g group) ;;
           ret (Some e))
          is_GitlabError
          (fun ex =>
             log ERROR "Problem creating export: %s" [PyStr (error_message ex)] ;;
             ret None) ;;
      (* give it some time to do the export *)
      me <- get_self ;;
      sleep (delay_seconds me) ;;
      (* modify output path *)
      pth <- getattr group "path" ;;
      component <- as_str pth ;;
      set_export_folder (joinpath fl (export_folder me) component) ;;
      me <- get_self ;;
      makedirs (export_folder me) ;;
      pth <- getattr group "path" ;;
      let output_file :=
        joinpath fl (export_folder me) ("group_" +:+ py_str pth +:+ ".tar.gz") in
      log INFO "Downloading group export to '%s' ..." [PyStr (path_str fl output_file)] ;;
      open_write output_file ;;
      match exporter with
      | None => raise (AttributeError "download")
      | Some e =>
          data <- call (group_export_download group)
                       (fun g => gl_group_export_download g group) ;;
          write output_file (Bytes data) ;;
          (* write group metadata file *)
          _write_metadata_file group (__get_filepath_group_metadata (export_folder me)) ;;
          pth <- getattr group "path" ;;
          msg <- getattr e "message" ;;
          log INFO "Group export finished for '%s' (%s)" [pth; msg] ;;
          ret group
      end
  end.

Definition _export_projects (fuel : nat) (group : Obj) (output_path : option Path)
  : M unit :=
  me <- get_self ;;
  let output_path :=
    match output_path with Some p => p | None => export_folder me end in
  projects <- call (group_projects_list group)
                   (fun g => gl_group_projects_list g group) ;;
  full_path <- getattr group "full_path" ;;
  log INFO "#%d projects in '%s'" [PyInt (Z.of_nat (length projects)); full_path] ;;
  for_each projects (fun project =>
    (* the project-object is a lazy proxy object - get the real one *)
    id <- getattr project "id" ;;
    project_full_obj <- call (projects_get id) (fun g => gl_projects_get g id) ;;
    export_project fuel project_full_obj (Some output_path)).

Fixpoint _export_subprojects_recursive (fuel : nat) (group : Obj)
    (output_path : option Path) : M unit :=
  me <- get_self ;;
  let output_path :=
    match output_path with Some p => p | None => export_folder me end in
  subgroups <- call (group_subgroups_list group)
                    (fun g => gl_group_subgroups_list g group) ;;
  for_each subgroups (fun subgroup =>
    (* the subgroup-object is a lazy proxy object - get the real one *)
    id <- getattr subgroup "id" ;;
    subgroup_full_obj <- call (groups_get id) (fun g => gl_groups_get g id) ;;
    (* create subdir for subgroup *)
    pth <- getattr subgroup_full_obj "path" ;;
    component <- as_str pth ;;
    let output_path_subdir := joinpath fl output_path component in
    makedirs output_path_subdir ;;
    (* create group metadata file *)
    _write_metadata_file subgroup_full_obj
                         (__get_filepath_group_metadata output_path_subdir) ;;
    (* shallow call (only the projects in current group) *)
    _export_projects fuel subgroup_full_obj (Some output_path_subdir) ;;
    (* recursive call (subgroups and sub-projects) *)
    match fuel with
    | O => out_of_fuel
    | S fuel' =>
        _export_subprojects_recursive fuel' subgroup_full_obj (Some output_path_subdir)
    end).

Definition exporting (fuel : nat) (gitlab_path : string) : M unit :=
  (* 1. export root group *)
  group <- _export_group gitlab_path ;;
  (* 2. export projects inside root group *)
  _export_projects fuel group None ;;
  (* 3. recursively export subprojects (and their projects) *)
  _export_subprojects_recursive fuel group None.

(** *** Import *)

(** The loop [while importer.import_status != "finished"]. *)
Fixpoint import_wait (fuel : nat) (import_id : pyval) (importer : Obj) (n : nat)
  : M Obj :=
  st <- getattr importer "import_status" ;;
  if is_finished st then ret importer
  else match fuel with
       | O => out_of_fuel
       | S fuel' =>
           me <- get_self ;;
           sleep (delay_seconds me) ;;
           importer' <- call (project_import_refresh import_id)
                             (fun g => gl_project_imports_get g import_id n) ;;
           import_wait fuel' import_id importer' (S n)
       end.

(** Ask the ProjectImportManager for the status and wait till it's done.
    ([projects.get(import_id, lazy=True)] makes no request.) *)
Definition __import_project_wait_done (fuel : nat) (import_id : pyval) : M unit :=
  try_except
    (importer <- call (project_imports_get import_id)
                      (fun g => gl_project_imports_get g import_id 0) ;;
     importer' <- import_wait fuel import_id importer 1 ;;
     pwn <- getattr importer' "path_with_namespace" ;;
     log INFO "Import finished of '%s'" [pwn])
    is_GitlabError
    (fun ex => log ERROR "Problem importing project: %s" [PyStr (error_message ex)]).

(** Do the import by sending the file content as binary data stream. *)
Definition __import_project_upload (filepath : Path) (nm slug : pyval)
    (namespace : string) : M pyval :=
  fin <- open_read filepath ;;
  try_except
    (result <- call (projects_import_project fin nm slug namespace)
                    (fun g => gl_projects_import_project g fin nm slug namespace) ;;
     import_id <- getitem result "id" ;;
     log INFO "Upload done. Remote import job is now in progress (id:%d)" [import_id] ;;
     ret import_id)
    is_GitlabError
    (fun ex =>
       log ERROR "Problem importing project '%s': %s"
           [PyStr (namespace +:+ "/" +:+ py_str slug); PyStr (error_message ex)] ;;
       ret PyNone).

(** Import project archive into Gitlab. *)
Definition import_project (fuel : nat) (filepath : Path) (nm slug : pyval)
    (namespace : string) : M unit :=
  import_id <- __import_project_upload filepath nm slug namespace ;;
  if truthy import_id then __import_project_wait_done fuel import_id
  else ret tt.

(** Import project from archive file, reading parameters from metadata file. *)
Definition _import_project (fuel : nat) (filepath : Path) (namespace : string)
  : M unit :=
  metadata_path <- lift (__get_filepath_project_metadata filepath) ;;
  metadata <- _read_metadata_file metadata_path ;;
  slug <- getitem metadata "path" ;;
  nm <- getitem metadata "name" ;;
  let path_with_namespace := namespace +:+ "/" +:+ py_str slug in
  existing <- get_project path_with_namespace ;;
  match existing with
  | Some _ =>
      log WARNING "Skipping already existing project: %s" [PyStr path_with_namespace]
  | None =>
      _ <- open_read filepath ;;   (* filepath.stat() *)
      log INFO "Importing project '%s' (%d MB) to '%s' ..." [nm; PyStr path_with_namespace] ;;
      import_project fuel filepath nm slug namespace
  end.

(** The namespace of the directory that [os.walk] reports as [root]. *)
Definition namespace_of (gitlab_root : option string) (main_group_path : string)
    (folder : Path) (root : string) : exn + string :=
  (* make root relative to the export_folder *)
  match relative_to (Path_of fl root) folder with
  | inl e => inl e
  | inr root_relative =>
      (* rootgroupname/subgroup1/subgroup2  (main_group + subgroups) *)
      let namespace := path_str fl (Path_of fl main_group_path ++ root_relative) in
      (* make sure it's all '/' in paths/namespaces *)
      let namespace := replace backslash slash namespace in
      (* prepend user-specified Gitlab root (if given on CLI) *)
      inr (if given gitlab_root
           then default "" gitlab_root +:+ "/" +:+ namespace
           else namespace)
  end.

(** Import Gitlab projects from a folder structure. *)
Definition _import_projects (fuel : nat) (gitlab_root : option string) : M unit :=
  me <- get_self ;;
  metadata <- _read_metadata_file (__get_filepath_group_metadata (export_folder me)) ;;
  main_group_path <- getitem metadata "path" ;;
  f <- get_fs ;;
  for_each (walk fl f (export_folder me)) (fun '(root, files) =>
    main_group_path <- as_str main_group_path ;;
    namespace <- lift (namespace_of gitlab_root main_group_path (export_folder me) root) ;;
    for_each files (fun filename =>
      if fnmatch fl filename "*.json" || fnmatch fl filename FILENAME_PATTERN_GROUP
      then ret tt
      else if negb (fnmatch fl filename FILENAME_PATTERN_PROJECT)
      then log WARNING "Skipping non-project archive: %s" [PyStr filename]
      else
        let filepath := joinpath fl (Path_of fl root) filename in
        _import_project fuel filepath namespace)).

(** Import groups from export file. *)
Definition _import_groups (gitlab_root : option string) : M bool :=
  me <- get_self ;;
  __check_is_export_folder (export_folder me) ;;
  metadata <- _read_metadata_file (__get_filepath_group_metadata (export_folder me)) ;;
  main_group_name <- getitem metadata "name" ;;
  main_group_path <- getitem metadata "path" ;;
  (* try to find the Gitlab parent group; root has gitlab_group_parent_id=None *)
  parent <-
    (if given gitlab_root then
       found <- get_group (default "" gitlab_root) ;;
       match found with
       | Some group =>
           id <- getattr group "id" ;;
           nm <- getattr group "name" ;;
           log INFO "Parent group found: %s (%d, '%s')"
               [PyStr (default "" gitlab_root); id; nm] ;;
           ret (Some id)
       | None =>
           log ERROR "No such group '%s' (for this access token)! (make sure it exists!)"
               [PyStr (default "" gitlab_root)] ;;
           ret None
       end
     else ret (Some PyNone)) ;;
  match parent with
  | None => ret false
  | Some gitlab_group_parent_id =>
      (if truthy gitlab_group_parent_id
       then log INFO "Importing group '%s' with path '%s' as subgroup of parent_id=%s ..."
                [main_group_name; main_group_path; PyStr (py_str gitlab_group_parent_id)]
       else log INFO "Importing group '%s' with path '%s' ..."
                [main_group_name; main_group_path]) ;;
      (* get first "group_*.tar.gz" file *)
      export_filepath <- __get_group_exportfile (export_folder me) ;;
      log INFO "Loading from file '%s' ..." [PyStr (path_str fl export_filepath)] ;;
      fin <- open_read export_filepath ;;
      call (groups_import_group fin main_group_path main_group_name
                                (PyStr (py_str gitlab_group_parent_id)))
           (fun g => gl_groups_import_group g fin main_group_path main_group_name
                                            (PyStr (py_str gitlab_group_parent_id))) ;;
      log INFO "Group import of '%s' done." [main_group_name] ;;
      ret true
  end.

(** Import Gitlab group and project exports into Gitlab. *)
Definition importing (fuel : nat) (gitlab_path : option string) (no_groups : bool)
  : M unit :=
  proceed <- (if negb no_groups then _import_groups gitlab_path else ret true) ;;
  if proceed then _import_projects fuel gitlab_path else ret tt.

End Orchestrator.

(** ** Predicates of the statements *)

(** A character that is a separator under neither convention. *)
Definition plain_char (c : ascii) : bool :=
  negb (Ascii.eqb c slash) && negb (Ascii.eqb c backslash).

Fixpoint plain (s : string) : bool :=
  match s with
  | EmptyString => true
  | String c s' => plain_char c && plain s'
  end.

(** A single path component: a directory name, or the [path] of a group or
    project. *)
Definition component (x : string) : bool := is_part x && plain x.


(** The events that are not log lines: the remote calls and the sleeps. *)
Definition is_action (e : event) : bool :=
  match e with
  | Log _ _ _ => false
  | _ => true
  end.

Definition actions (t : list event) : list event := List.filter is_action t.

(** The state after [evs] have been appended to the trace of [s]. *)
Definition after (s : state) (evs : list event) : state :=
  {| self := self s; fs := fs s; trace := trace s ++ evs |}.


(** The requests of a group export job. *)
Definition is_group_export (e : event) : bool :=
  match e with
  | Api (group_exports_create _) | Api (group_export_download _) => true
  | _ => false
  end.

(** Every run of [m] relates its first state to its last state by [R], and
    ends, when it ends in an exception, in one of [E]. *)
Definition keeps {A} (R : state -> state -> Prop) (E : exn -> Prop) (m : M A) : Prop :=
  ∀ s, R s (snd (m s)) ∧ ∀ e, fst (m s) = Exn e -> E e.

(** ** A small instance, used to run the model

    Group [teamA] holds project [svc1] and subgroup [sub1] with project
    [svc2]; the tree was exported to [exp/teamA]. *)
Module Demo.

Definition is_str (k : pyval) (s : string) : bool :=
  match k with
  | PyStr x => String.eqb x s
  | _ => false
  end.

Definition teamA : Obj :=
  {[ "id" := PyInt 11; "name" := PyStr "Team A"; "path" := PyStr "teamA";
     "full_path" := PyStr "teamA" ]}.

Definition svc1 : Obj :=
  {[ "id" := PyInt 21; "name" := PyStr "Service 1"; "path" := PyStr "svc1";
     "path_with_namespace" := PyStr "teamA/svc1" ]}.

(** A job that reports "started" twice, then "finished". *)
Definition job (field : string) (n : nat) : Obj :=
  {[ field := PyStr (if (n <? 2)%nat then "started" else "finished");
     "path_with_namespace" := PyStr "teamA/svc1" ]}.

(** The remote instance: [teamA] and [teamA/svc1] exist, nothing else does;
    a group export job cannot be created. *)
Definition remote : Gitlab := {|
  gl_groups_get k :=
    if is_str k "teamA" then inr teamA
    else inl (GitlabGetError "404 Group Not Found");
  gl_projects_get k :=
    if is_str k "teamA/svc1" then inr svc1
    else inl (GitlabGetError "404 Project Not Found");
  gl_group_exports_create _ := inl (GitlabError "403 Forbidden");
  gl_group_export_download _ := inr "group archive";
  gl_group_projects_list _ := inr [];
  gl_group_subgroups_list _ := inr [];
  gl_project_exports_create _ := inr {[ "message" := PyStr "202 Accepted" ]};
  gl_project_export_refresh _ n := inr (job "export_status" n);
  gl_project_export_download _ := inl (GitlabError "404 Not Found");
  gl_projects_import_project _ _ _ _ := inr {[ "id" := PyInt 31 ]};
  gl_project_imports_get _ n := inr (job "import_status" n);
  gl_groups_import_group _ _ _ _ := inr tt
|}.

Definition disk : filesys := {|
  dirs := {[ ["exp"]; ["exp"; "teamA"]; ["exp"; "teamA"; "sub1"]; ["empty"] ]};
  files :=
    {[ ["exp"; "teamA"; "metadata.json"] :=
         Json {[ "name" := PyStr "Team A"; "path" := PyStr "teamA" ]};
       ["exp"; "teamA"; "group_teamA.tar.gz"] := Bytes "group archive";
       ["exp"; "teamA"; "project_svc1.tar.gz"] := Bytes "archive 1";
       ["exp"; "teamA"; "project_svc1.tar.gz.json"] :=
         Json {[ "name" := PyStr "Service 1"; "path" := PyStr "svc1" ]};
       ["exp"; "teamA"; "sub1"; "metadata.json"] :=
         Json {[ "name" := PyStr "Sub 1"; "path" := PyStr "sub1" ]};
       ["exp"; "teamA"; "sub1"; "project_svc2.tar.gz"] := Bytes "archive 2";
       ["exp"; "teamA"; "sub1"; "project_svc2.tar.gz.json"] :=
         Json {[ "name" := PyStr "Service 2"; "path" := PyStr "svc2" ]} ]}
|}.

(** The state of a run started on directory [folder]. *)
Definition start (folder : Path) : state :=
  {| self := {| gl := remote; delay_seconds := one; export_folder := folder |};
     fs := disk; trace := [] |}.

End Demo.

(** ** Further instances

    Remote instances that fail or stall, a directory with a damaged
    sidecar file, one whose metadata file has no name, and one whose own
    name has a bracket. *)
Module Cases.

(** A proxy object as a listing returns it. *)
Definition listed : Obj := {[ "id" := PyInt 21 ]}.

(** Every request fails with a server error; only the listings answer. *)
Definition down : Gitlab := {|
  gl_groups_get _ := inl (GitlabError "500 Internal Server Error");
  gl_projects_get _ := inl (GitlabError "500 Internal Server Error");
  gl_group_exports_create _ := inl (GitlabError "500 Internal Server Error");
  gl_group_export_download _ := inl (GitlabError "500 Internal Server Error");
  gl_group_projects_list _ := inr [listed];
  gl_group_subgroups_list _ := inr [];
  gl_project_exports_create _ := inl (GitlabError "500 Internal Server Error");
  gl_project_export_refresh _ _ := inl (GitlabError "500 Internal Server Error");
  gl_project_export_download _ := inl (GitlabError "500 Internal Server Error");
  gl_projects_import_project _ _ _ _ := inl (GitlabError "500 Internal Server Error");
  gl_project_imports_get _ _ := inl (GitlabError "500 Internal Server Error");
  gl_groups_import_group _ _ _ _ := inl (GitlabError "500 Internal Server Error")
|}.

(** Jobs are created and never finish; the status fetches of an export job
    fail from fetch number [failing] on, when there is one. *)
Definition stalling (failing : option nat) : Gitlab := {|
  gl_groups_get := gl_groups_get Demo.remote;
  gl_projects_get := gl_projects_get Demo.remote;
  gl_group_exports_create _ := inr {[ "message" := PyStr "202 Accepted" ]};
  gl_group_export_download _ := inr "group archive";
  gl_group_projects_list _ := inr [];
  gl_group_subgroups_list _ := inr [];
  gl_project_exports_create _ := inr {[ "message" := PyStr "202 Accepted" ]};
  gl_project_export_refresh _ n :=
    match failing with
    | Some k =>
        if (k <=? n)%nat then inl (GitlabError "502 Bad Gateway")
        else inr {[ "export_status" := PyStr "started" ]}
    | None => inr {[ "export_status" := PyStr "started" ]}
    end;
  gl_project_export_download _ := inr "archive";
  gl_projects_import_project _ _ _ _ := inr {[ "id" := PyInt 31 ]};
  gl_project_imports_get _ _ := inr {[ "import_status" := PyStr "scheduled" ]};
  gl_groups_import_group _ _ _ _ := inr tt
|}.

(** Group [teamA] (id 11) with its one subgroup [sub1] (id 12); no group
    has projects. *)
Definition sub1 : Obj :=
  {[ "id" := PyInt 12; "name" := PyStr "Sub 1"; "path" := PyStr "sub1";
     "full_path" := PyStr "teamA/sub1"; "parent_id" := PyInt 11 ]}.

Definition tree : Gitlab := {|
  gl_groups_get k :=
    match k with
    | PyInt 12 => inr sub1
    | _ => gl_groups_get Demo.remote k
    end;
  gl_projects_get := gl_projects_get Demo.remote;
  gl_group_exports_create _ := inr {[ "message" := PyStr "202 Accepted" ]};
  gl_group_export_download _ := inr "group archive";
  gl_group_projects_list _ := inr [];
  gl_group_subgroups_list g :=
    match g !! "id" with
    | Some (PyInt 11) => inr [{[ "id" := PyInt 12 ]}]
    | _ => inr []
    end;
  gl_project_exports_create _ := inr {[ "message" := PyStr "202 Accepted" ]};
  gl_project_export_refresh _ _ := inr {[ "export_status" := PyStr "finished" ]};
  gl_project_export_download _ := inr "archive";
  gl_projects_import_project _ _ _ _ := inr {[ "id" := PyInt 31 ]};
  gl_project_imports_get _ _ := inr {[ "import_status" := PyStr "finished" ]};
  gl_groups_import_group _ _ _ _ := inr tt
|}.

(** An archive whose sidecar file has no [path]. *)
Definition damaged : filesys := {|
  dirs := {[ ["exp"] ]};
  files :=
    {[ ["exp"; "metadata.json"] :=
         Json {[ "name" := PyStr "Team A"; "path" := PyStr "teamA" ]};
       ["exp"; "project_a.tar.gz"] := Bytes "archive";
       ["exp"; "project_a.tar.gz.json"] := Json {[ "name" := PyStr "A" ]} ]}
|}.



Definition start (g : Gitlab) (f : filesys) (folder : Path) : state :=
  {| self := {| gl := g; delay_seconds := one; export_folder := folder |};
     fs := f; trace := [] |}.

End Cases.

(** ** Facts about strings and paths *)


Lemma plain_char_not_sep fl c : plain_char c = true -> is_sep fl c = false.
Proof.
  unfold plain_char. intros [H1 H2]%andb_true_iff.
  apply negb_true_iff in H1, H2. destruct fl; simpl; rewrite ?H1, ?H2; done.
Qed.


Lemma split_plain fl x : plain x = true -> split fl x = [x].
Proof.
  induction x as [|c x IH]; simpl; [done|].
  intros [Hc Hx]%andb_true_iff.
  rewrite (plain_char_not_sep fl c Hc), (IH Hx). done.
Qed.


Lemma component_part x : component x = true -> is_part x = true.
Proof. by intros [? _]%andb_true_iff. Qed.

Lemma component_plain x : component x = true -> plain x = true.
Proof. by intros [_ ?]%andb_true_iff. Qed.

Lemma Path_of_component fl x : component x = true -> Path_of fl x = [x].
Proof.
  intros Hx. unfold Path_of. rewrite (split_plain fl x (component_plain x Hx)).
  rewrite filter_cons_True; [done|]. by rewrite (component_part x Hx).
Qed.


Lemma append_cons x (a b : string) : String x a +:+ b = String x (a +:+ b).
Proof. reflexivity. Qed.











(** ** The metadata check and the import phases *)

Local Open Scope py_scope.

Lemma group_metadata_path fl (p : Path) :
  __get_filepath_group_metadata fl p = p ++ ["metadata.json"].
Proof. by destruct fl. Qed.

Lemma exists_false f (p : Path) : exists_ f p = false -> files f !! p = None.
Proof.
  unfold exists_. intros [_ H]%orb_false_iff. apply bool_decide_eq_false in H.
  destruct (files f !! p); [|done]. exfalso. apply H. eauto.
Qed.

Lemma check_rejects fl s :
  exists_ (fs s) (export_folder (self s) ++ ["metadata.json"]) = false ->
  __check_is_export_folder fl (export_folder (self s)) s
  = (Exn (RuntimeError "Path has no metadata file 'metadata.json'!"), s).
Proof.
  intros H. unfold __check_is_export_folder, bind, get_fs. simpl.
  by rewrite group_metadata_path, H.
Qed.

Lemma check_accepts fl s :
  exists_ (fs s) (export_folder (self s) ++ ["metadata.json"]) = true ->
  __check_is_export_folder fl (export_folder (self s)) s = (Val tt, s).
Proof.
  intros H. unfold __check_is_export_folder, bind, get_fs. simpl.
  by rewrite group_metadata_path, H.
Qed.

Lemma import_groups_rejects fl root s :
  exists_ (fs s) (export_folder (self s) ++ ["metadata.json"]) = false ->
  _import_groups fl root s
  = (Exn (RuntimeError "Path has no metadata file 'metadata.json'!"), s).
Proof.
  intros H. unfold _import_groups, bind at 1 2. unfold get_self.
  by rewrite (check_rejects fl s H).
Qed.

(** C7: a directory without [metadata.json] makes the import-groups phase
    raise the explicit [RuntimeError], in a state where no event at all (so
    no remote call) has been added; with [metadata.json] present the check
    returns normally and the phase goes on. *)
Theorem import_groups_checks_export_folder fl root s :
  (exists_ (fs s) (export_folder (self s) ++ ["metadata.json"]) = false ->
   _import_groups fl root s
   = (Exn (RuntimeError "Path has no metadata file 'metadata.json'!"), s))
  ∧ (exists_ (fs s) (export_folder (self s) ++ ["metadata.json"]) = true ->
     __check_is_export_folder fl (export_folder (self s)) s = (Val tt, s)).
Proof. split; [apply import_groups_rejects | apply check_accepts]. Qed.

Lemma import_groups_checks_export_folder_witness :
  _import_groups Posix None (Demo.start ["empty"])
  = (Exn (RuntimeError "Path has no metadata file 'metadata.json'!"), Demo.start ["empty"])
  ∧ __check_is_export_folder Posix ["exp"; "teamA"] (Demo.start ["exp"; "teamA"])
    = (Val tt, Demo.start ["exp"; "teamA"]).
Proof.
  split.
  - apply (proj1 (import_groups_checks_export_folder Posix None (Demo.start ["empty"]))).
    vm_compute. reflexivity.
  - apply (proj2 (import_groups_checks_export_folder Posix None (Demo.start ["exp"; "teamA"]))).
    vm_compute. reflexivity.
Defined.

(** C9: with the groups phase skipped nothing checks the directory: on a
    directory without [metadata.json] the run ends in the [FileNotFoundError]
    of opening the root metadata file in the projects phase, where the groups
    phase would have raised its [RuntimeError]. *)
Theorem importing_no_groups_skips_check fl fuel root s :
  exists_ (fs s) (export_folder (self s) ++ ["metadata.json"]) = false ->
  importing fl fuel root true s
  = (Exn (FileNotFoundError (export_folder (self s) ++ ["metadata.json"])), s)
  ∧ importing fl fuel root false s
    = (Exn (RuntimeError "Path has no metadata file 'metadata.json'!"), s).
Proof.
  intros H. split.
  - unfold importing, _import_projects, _read_metadata_file, open_read, bind,
      get_self, get_fs, ret. simpl.
    by rewrite group_metadata_path, (exists_false _ _ H).
  - unfold importing, bind at 1. simpl. by rewrite (import_groups_rejects fl root s H).
Qed.

Lemma importing_no_groups_skips_check_witness :
  importing Windows 0 (Some "dest") true (Demo.start ["empty"])
  = (Exn (FileNotFoundError ["empty"; "metadata.json"]), Demo.start ["empty"])
  ∧ importing Windows 0 (Some "dest") false (Demo.start ["empty"])
    = (Exn (RuntimeError "Path has no metadata file 'metadata.json'!"), Demo.start ["empty"]).
Proof.
  apply (importing_no_groups_skips_check Windows 0 (Some "dest") (Demo.start ["empty"])).
  vm_compute. reflexivity.
Defined.

(** *** Existing projects are skipped *)

Lemma with_name_snoc (l : Path) n m : with_name (l ++ [n]) m = inr (l ++ [m]).
Proof.
  unfold with_name. rewrite removelast_last.
  destruct (l ++ [n]) eqn:E; [|done]. by destruct l.
Qed.

Lemma name_snoc (l : Path) n : name (l ++ [n]) = n.
Proof. unfold name. apply last_last. Qed.

Lemma project_metadata_path (l : Path) n :
  __get_filepath_project_metadata (l ++ [n]) = inr (l ++ [n +:+ ".json"]).
Proof. unfold __get_filepath_project_metadata. by rewrite name_snoc, with_name_snoc. Qed.

(** C5: when the project [namespace/slug] of an archive exists at the
    destination, importing the archive asks for that project, logs the
    warning and does nothing else: no upload, no import job, no change of
    state. *)
Theorem import_project_skips_existing fuel s (dir : Path) file namespace
    (metadata : Obj) slug nm (project : Obj) :
  files (fs s) !! (dir ++ [file +:+ ".json"]) = Some (Json metadata) ->
  metadata !! "path" = Some slug ->
  metadata !! "name" = Some nm ->
  gl_projects_get (gl (self s)) (PyStr (namespace +:+ "/" +:+ py_str slug)) = inr project ->
  _import_project fuel (dir ++ [file]) namespace s
  = (Val tt,
     after s [Api (projects_get (PyStr (namespace +:+ "/" +:+ py_str slug)));
              Log WARNING "Skipping already existing project: %s"
                  [PyStr (namespace +:+ "/" +:+ py_str slug)]]).
Proof.
  intros Hfile Hpath Hname Hget.
  unfold _import_project. rewrite project_metadata_path.
  unfold _read_metadata_file, open_read, get_project, getitem, call, try_except,
    bind, lift, get_fs, get_self, emit, log, ret. simpl.
  rewrite Hfile, Hpath, Hname. simpl. rewrite Hget. simpl.
  unfold after, emit. simpl. by rewrite <- app_assoc.
Qed.

Lemma import_project_skips_existing_witness :
  _import_project 5 ["exp"; "teamA"; "project_svc1.tar.gz"] "teamA"
                  (Demo.start ["exp"; "teamA"])
  = (Val tt,
     after (Demo.start ["exp"; "teamA"])
       [Api (projects_get (PyStr "teamA/svc1"));
        Log WARNING "Skipping already existing project: %s" [PyStr "teamA/svc1"]]).
Proof.
  apply (import_project_skips_existing 5 (Demo.start ["exp"; "teamA"])
           ["exp"; "teamA"] "project_svc1.tar.gz" "teamA"
           {[ "name" := PyStr "Service 1"; "path" := PyStr "svc1" ]}
           (PyStr "svc1") (PyStr "Service 1") Demo.svc1);
    reflexivity.
Defined.

(** *** The group archive *)







(** C1 at a top-level import (no [--root]): the one group-import request
    carries the archive, the path and the name of the metadata file, and as
    parent id the string ["None"], the text of [str(None)], where the
    specification has no parent id at all. *)
Theorem import_groups_top_level_parent_id :
  fst (_import_groups Posix None (Demo.start ["exp"; "teamA"])) = Val true
  ∧ actions (trace (snd (_import_groups Posix None (Demo.start ["exp"; "teamA"]))))
    = [Api (groups_import_group (Bytes "group archive") (PyStr "teamA")
                                (PyStr "Team A") (PyStr "None"))].
Proof. split; vm_compute; reflexivity. Qed.

(** C2 at a group whose export job cannot be created: the error is logged,
    the run goes on to the download with no job at hand and ends in an
    uncaught [AttributeError]; nothing of the group is exported. *)
Theorem exporting_without_group_export_job fuel :
  fst (exporting Posix fuel "teamA" (Demo.start ["exp"])) = Exn (AttributeError "download")
  ∧ trace (snd (exporting Posix fuel "teamA" (Demo.start ["exp"])))
    = [Api (groups_get (PyStr "teamA"));
       Log INFO "Creating group export for '%s' (path '%s') ..."
           [PyStr "Team A"; PyStr "teamA"];
       Api (group_exports_create Demo.teamA);
       Log ERROR "Problem creating export: %s" [PyStr "403 Forbidden"];
       Sleep one;
       Log INFO "Downloading group export to '%s' ..."
           [PyStr "exp/teamA/group_teamA.tar.gz"]].
Proof. split; vm_compute; reflexivity. Qed.

(** *** The delay *)

Lemma SFltb_one_not_SFleb d : SFltb d one = true -> SFleb one d = false.
Proof.
  unfold one. generalize 4503599627370496%positive (-52)%Z. intros k x.
  unfold SFltb, SFleb, SFcompare.
  destruct d as [[]|[]| |[] m e]; try done.
  rewrite (Z.compare_antisym e x).
  destruct (e ?= x)%Z; cbn [CompOpp]; try done.
  replace (Pos.compare_cont Eq k m) with (CompOpp (Pos.compare_cont Eq m k))
    by apply (Pos.compare_cont_antisym m k Eq).
  by destruct (Pos.compare_cont Eq m k).
Qed.

(** C10: a delay below 1 makes the constructor fail its assertion; a delay
    of at least 1 gives an object that holds this very delay, and each round
    of the two polling loops sleeps the delay of the object. *)
Theorem init_checks_delay_seconds (g : Gitlab) (folder : Path) (d : spec_float) :
  (SFltb d one = true ->
   __init__ g folder d
   = inl (AssertionError "Delay between download checks must be a meaningful duration!"))
  ∧ (SFleb one d = true ->
     __init__ g folder d = inr {| gl := g; delay_seconds := d; export_folder := folder |})
  ∧ (∀ s fuel (project exporter : Obj) n st,
       exporter !! "export_status" = Some st -> is_finished st = false ->
       export_wait (S fuel) project exporter n s
       = (sleep (delay_seconds (self s)) ;;
          exporter' <- export_refresh project n ;;
          export_wait fuel project exporter' (S n)) s)
  ∧ (∀ s fuel import_id (importer : Obj) n st,
       importer !! "import_status" = Some st -> is_finished st = false ->
       import_wait (S fuel) import_id importer n s
       = (sleep (delay_seconds (self s)) ;;
          importer' <- call (project_import_refresh import_id)
                            (fun g => gl_project_imports_get g import_id n) ;;
          import_wait fuel import_id importer' (S n)) s).
Proof.
  repeat split.
  - intros H. unfold __init__. by rewrite (SFltb_one_not_SFleb d H).
  - intros H. unfold __init__. by rewrite H.
  - intros s fuel project exporter n st Hst Hfin.
    cbn [export_wait]. unfold bind at 1, getattr. rewrite Hst.
    unfold ret at 1. cbv beta iota. by rewrite Hfin.
  - intros s fuel import_id importer n st Hst Hfin.
    cbn [import_wait]. unfold bind at 1, getattr. rewrite Hst.
    unfold ret at 1. cbv beta iota. by rewrite Hfin.
Qed.

Lemma init_checks_delay_seconds_witness :
  __init__ Demo.remote ["exp"] (S754_finite false 4503599627370496 (-53))
  = inl (AssertionError "Delay between download checks must be a meaningful duration!")
  ∧ __init__ Demo.remote ["exp"] (S754_finite false 8444249301319680 (-49))
    = inr {| gl := Demo.remote;
             delay_seconds := S754_finite false 8444249301319680 (-49);
             export_folder := ["exp"] |}
  ∧ export_wait 1%nat Demo.svc1 (Demo.job "export_status" 0%nat) 1%nat (Demo.start ["exp"])
    = (sleep (delay_seconds (self (Demo.start ["exp"]))) ;;
       exporter' <- export_refresh Demo.svc1 1%nat ;;
       export_wait 0%nat Demo.svc1 exporter' 2%nat) (Demo.start ["exp"])
  ∧ import_wait 1%nat (PyInt 31) (Demo.job "import_status" 0%nat) 1%nat (Demo.start ["exp"])
    = (sleep (delay_seconds (self (Demo.start ["exp"]))) ;;
       importer' <- call (project_import_refresh (PyInt 31))
                         (fun g => gl_project_imports_get g (PyInt 31) 1%nat) ;;
       import_wait 0%nat (PyInt 31) importer' 2%nat) (Demo.start ["exp"]).
Proof.
  split.
  { apply (proj1 (init_checks_delay_seconds Demo.remote ["exp"]
                    (S754_finite false 4503599627370496 (-53)))).
    reflexivity. }
  split.
  { apply (proj1 (proj2 (init_checks_delay_seconds Demo.remote ["exp"]
                           (S754_finite false 8444249301319680 (-49))))).
    reflexivity. }
  split.
  - apply (proj1 (proj2 (proj2 (init_checks_delay_seconds Demo.remote ["exp"] one)))
             (Demo.start ["exp"]) 0%nat Demo.svc1 (Demo.job "export_status" 0%nat) 1%nat
             (PyStr "started")); reflexivity.
  - apply (proj2 (proj2 (proj2 (init_checks_delay_seconds Demo.remote ["exp"] one)))
             (Demo.start ["exp"]) 0%nat (PyInt 31) (Demo.job "import_status" 0%nat) 1%nat
             (PyStr "started")); reflexivity.
Defined.

(** ** Project export *)

Lemma plain_app (a b : string) : plain (a +:+ b) = plain a && plain b.
Proof.
  induction a as [|c a IH]; [done|].
  rewrite append_cons. simpl. by rewrite IH, andb_assoc.
Qed.

Lemma project_archive_component p :
  plain p = true -> component ("project_" +:+ p +:+ ".tar.gz") = true.
Proof.
  intros Hp. unfold component. apply andb_true_iff. split; [done|].
  by rewrite !plain_app, Hp.
Qed.

Lemma project_archive_path fl (output_path : Path) p :
  plain p = true ->
  joinpath fl output_path ("project_" +:+ p +:+ ".tar.gz")
  = output_path ++ ["project_" +:+ p +:+ ".tar.gz"].
Proof.
  intros Hp. unfold joinpath. by rewrite (Path_of_component fl _ (project_archive_component p Hp)).
Qed.

Lemma collect_lookup (obj acc : Obj) (keys : list string) k :
  foldl (fun metadata key =>
           match obj !! key with
           | Some v => <[key := v]> metadata
           | None => metadata
           end) acc keys !! k
  = if bool_decide (k ∈ keys) then from_option Some (acc !! k) (obj !! k) else acc !! k.
Proof.
  revert acc. induction keys as [|key keys IH]; intros acc; [done|].
  simpl. rewrite IH.
  destruct (decide (k = key)) as [->|Hne].
  - rewrite (bool_decide_eq_true_2 (key ∈ key :: keys)) by (by left).
    destruct (obj !! key) as [v|] eqn:E; simpl.
    + rewrite lookup_insert_eq. by destruct (bool_decide (key ∈ keys)).
    + by destruct (bool_decide (key ∈ keys)).
  - assert (bool_decide (k ∈ key :: keys) = bool_decide (k ∈ keys)) as ->.
    { apply bool_decide_ext. rewrite elem_of_cons. split; [by intros [?|?] | by right]. }
    destruct (obj !! key) as [v|]; [|done].
    by rewrite lookup_insert_ne.
Qed.

Lemma collect_metadata_name (obj : Obj) : collect_metadata obj !! "name" = obj !! "name".
Proof. unfold collect_metadata. rewrite collect_lookup. simpl. by destruct (obj !! "name"). Qed.

Lemma collect_metadata_path (obj : Obj) : collect_metadata obj !! "path" = obj !! "path".
Proof. unfold collect_metadata. rewrite collect_lookup. simpl. by destruct (obj !! "path"). Qed.

Lemma elem_of_prefixes (p : Path) : p ∈ prefixes p.
Proof.
  induction p as [|x p IH]; simpl; [by left|].
  right. apply list_elem_of_fmap. by exists p.
Qed.

(** [os.makedirs] leaves the directory in place: this is how the callers of
    [export_project] provide its output directory. *)
Lemma makedirs_run (p : Path) s :
  ∃ s', makedirs p s = (Val tt, s') ∧ p ∈ dirs (fs s') ∧ self s' = self s.
Proof.
  eexists. split; [reflexivity|]. simpl. split; [|done].
  apply elem_of_union_l, elem_of_list_to_set, elem_of_prefixes.
Qed.

(** Writing the metadata of an object that has a name and a path, into an
    existing directory. *)
Lemma write_metadata_file_run (obj : Obj) (d : Path) n s nm pth :
  obj !! "name" = Some nm -> obj !! "path" = Some pth ->
  d ∈ dirs (fs s) ->
  _write_metadata_file obj (d ++ [n]) s
  = (Val tt,
     {| self := self s;
        fs := {| dirs := dirs (fs s);
                 files := <[d ++ [n] := Json (collect_metadata obj)]>
                            (<[d ++ [n] := Bytes ""]> (files (fs s))) |};
        trace := trace s |}).
Proof.
  intros Hname Hpath Hd. unfold _write_metadata_file.
  rewrite collect_metadata_name, collect_metadata_path, Hname, Hpath.
  rewrite !(bool_decide_eq_true_2 (is_Some (Some _))) by eauto.
  unfold open_write, write, bind, get_fs, put_fs, ret. simpl.
  rewrite removelast_last. by rewrite (bool_decide_eq_true_2 _ Hd).
Qed.

Local Arguments _write_metadata_file : simpl never.

(** The download step on an existing output directory: it always returns,
    makes the one download request, and leaves the sidecar file. *)
Lemma export_project_download_run fl s (project : Obj) (output_path : Path) p nm :
  project !! "path" = Some (PyStr p) -> plain p = true ->
  project !! "name" = Some nm ->
  output_path ∈ dirs (fs s) ->
  ∃ s',
    export_project_download fl project output_path s = (Val tt, s')
    ∧ self s' = self s
    ∧ files (fs s') !! (output_path ++ [("project_" +:+ p +:+ ".tar.gz") +:+ ".json"])
      = Some (Json (collect_metadata project))
    ∧ actions (trace s') = actions (trace s) ++ [Api (project_export_download project)].
Proof.
  intros Hpath Hp Hname Hd.
  unfold export_project_download, getattr. rewrite Hpath.
  unfold try_except, open_write, write, call, bind, lift, log, emit, get_fs, put_fs,
    get_self, ret, raise. cbv beta iota zeta.
  change (py_str (PyStr p)) with p. rewrite (project_archive_path fl output_path p Hp).
  rewrite project_metadata_path. simpl.
  rewrite removelast_last, (bool_decide_eq_true_2 _ Hd). simpl.
  destruct (gl_project_export_download (gl (self s)) project) as [e|data]; simpl;
    match goal with
    | |- context [_write_metadata_file ?o (?d ++ [?n]) ?st] =>
        rewrite (write_metadata_file_run o d n st nm (PyStr p) Hname Hpath Hd)
    end;
    (eexists; split; [reflexivity|]; simpl; split; [done|];
     split; [by rewrite lookup_insert_eq|];
     unfold actions; rewrite <- ?app_assoc, ?List.filter_app; simpl;
     by rewrite ?app_nil_r).
Qed.

(** A project object without a name does not get as far as the export job:
    the first log line of [export_project] already needs it. *)
Lemma export_project_without_name fl fuel s (project : Obj) output_path :
  project !! "name" = None ->
  ∃ a, export_project fl fuel project output_path s = (Exn (AttributeError a), s).
Proof.
  intros Hname. unfold export_project, getattr, bind, get_self.
  cbv beta iota zeta.
  destruct (project !! "path_with_namespace"); [|by eexists].
  unfold ret at 1. cbv beta iota.
  destruct (project !! "id"); [|by eexists].
  unfold ret at 1. cbv beta iota. rewrite Hname. by eexists.
Qed.

(** C6: once the export of a project reaches the download, the sidecar file
    named after the archive with [.json] appended is written into the output
    directory, with the name and the path of the project in it, whatever the
    download request answers, an error included. *)
Theorem export_project_writes_sidecar fl s (project : Obj) (output_path : Path) p nm :
  project !! "path" = Some (PyStr p) -> plain p = true ->
  project !! "name" = Some nm ->
  bool_decide (output_path ∈ dirs (fs s)) = true ->
  ∃ s' (metadata : Obj),
    export_project_download fl project output_path s = (Val tt, s')
    ∧ name (joinpath fl output_path ("project_" +:+ p +:+ ".tar.gz"))
      = "project_" +:+ p +:+ ".tar.gz"
    ∧ files (fs s') !! (output_path ++ [("project_" +:+ p +:+ ".tar.gz") +:+ ".json"])
      = Some (Json metadata)
    ∧ metadata !! "name" = Some nm
    ∧ metadata !! "path" = Some (PyStr p).
Proof.
  intros Hpath Hp Hname Hd. apply bool_decide_eq_true in Hd.
  destruct (export_project_download_run fl s project output_path p nm Hpath Hp Hname Hd)
    as (s' & Hrun & _ & Hfile & _).
  exists s', (collect_metadata project).
  split; [exact Hrun|]. split; [by rewrite project_archive_path, name_snoc|].
  split; [exact Hfile|].
  by rewrite collect_metadata_name, collect_metadata_path.
Qed.

Lemma export_project_writes_sidecar_witness :
  ∃ s' (metadata : Obj),
    export_project_download Posix Demo.svc1 ["exp"; "teamA"] (Demo.start ["exp"; "teamA"])
    = (Val tt, s')
    ∧ name (joinpath Posix ["exp"; "teamA"] ("project_" +:+ "svc1" +:+ ".tar.gz"))
      = "project_" +:+ "svc1" +:+ ".tar.gz"
    ∧ files (fs s') !! (["exp"; "teamA"] ++ [("project_" +:+ "svc1" +:+ ".tar.gz") +:+ ".json"])
      = Some (Json metadata)
    ∧ metadata !! "name" = Some (PyStr "Service 1")
    ∧ metadata !! "path" = Some (PyStr "svc1").
Proof.
  apply (export_project_writes_sidecar Posix (Demo.start ["exp"; "teamA"]) Demo.svc1
           ["exp"; "teamA"] "svc1" (PyStr "Service 1")).
  - vm_compute. reflexivity.
  - vm_compute. reflexivity.
  - vm_compute. reflexivity.
  - vm_compute. reflexivity.
Defined.

(** ** The polling loops *)

Lemma is_finished_eq st : is_finished st = true -> st = PyStr "finished".
Proof.
  destruct st as [| | |x]; simpl; try done.
  by intros ->%String.eqb_eq.
Qed.

(** One round of the export loop. *)
Lemma export_wait_step fuel (project e : Obj) n s st :
  e !! "export_status" = Some st ->
  export_wait fuel project e n s
  = if is_finished st then (Val e, s)
    else match fuel with
         | O => (OutOfFuel, s)
         | S fuel' =>
             let s1 := after s [Sleep (delay_seconds (self s));
                                Api (project_export_refresh project)] in
             match gl_project_export_refresh (gl (self s)) project n with
             | inl err => (Exn err, s1)
             | inr e' => export_wait fuel' project e' (S n) s1
             end
         end.
Proof.
  intros Hst.
  destruct fuel as [|fuel]; cbn [export_wait];
    unfold export_refresh, call, sleep, emit, bind, get_self, lift, getattr;
    rewrite Hst; unfold ret, raise, out_of_fuel; cbv beta iota zeta;
    destruct (is_finished st); try reflexivity.
  cbn [self fs trace]. unfold after. rewrite <- app_assoc. simpl.
  by destruct (gl_project_export_refresh (gl (self s)) project n).
Qed.

Lemma export_wait_no_status fuel (project e : Obj) n s :
  e !! "export_status" = None ->
  export_wait fuel project e n s = (Exn (AttributeError "export_status"), s).
Proof.
  intros Hst. destruct fuel; cbn [export_wait]; unfold bind, getattr; by rewrite Hst.
Qed.

(** One round of the import loop. *)
Lemma import_wait_step fuel import_id (e : Obj) n s st :
  e !! "import_status" = Some st ->
  import_wait fuel import_id e n s
  = if is_finished st then (Val e, s)
    else match fuel with
         | O => (OutOfFuel, s)
         | S fuel' =>
             let s1 := after s [Sleep (delay_seconds (self s));
                                Api (project_import_refresh import_id)] in
             match gl_project_imports_get (gl (self s)) import_id n with
             | inl err => (Exn err, s1)
             | inr e' => import_wait fuel' import_id e' (S n) s1
             end
         end.
Proof.
  intros Hst.
  destruct fuel as [|fuel]; cbn [import_wait];
    unfold call, sleep, emit, bind, get_self, lift, getattr;
    rewrite Hst; unfold ret, raise, out_of_fuel; cbv beta iota zeta;
    destruct (is_finished st); try reflexivity.
  cbn [self fs trace]. unfold after. rewrite <- app_assoc. simpl.
  by destruct (gl_project_imports_get (gl (self s)) import_id n).
Qed.

Lemma import_wait_no_status fuel import_id (e : Obj) n s :
  e !! "import_status" = None ->
  import_wait fuel import_id e n s = (Exn (AttributeError "import_status"), s).
Proof.
  intros Hst. destruct fuel; cbn [import_wait]; unfold bind, getattr; by rewrite Hst.
Qed.

Local Arguments export_wait : simpl never.
Local Arguments import_wait : simpl never.
Local Arguments export_project_download : simpl never.

(** The export loop returns a job only when its status is "finished". *)
Lemma export_wait_exit fuel (project : Obj) :
  ∀ (e : Obj) n s (e' : Obj) s',
    export_wait fuel project e n s = (Val e', s') ->
    e' !! "export_status" = Some (PyStr "finished").
Proof.
  induction fuel as [|fuel IH]; intros e n s e' s';
    (destruct (e !! "export_status") as [st|] eqn:Hst;
     [rewrite (export_wait_step _ project e n s st Hst)
     |by rewrite (export_wait_no_status _ project e n s Hst)]);
    (destruct (is_finished st) eqn:Hfin;
     [intros [= <- <-]; by rewrite Hst, (is_finished_eq st Hfin)|]); [done|].
  cbv zeta. destruct (gl_project_export_refresh _ project n); [done|]. apply IH.
Qed.

(** The import loop returns a job only when its status is "finished". *)
Lemma import_wait_exit fuel import_id :
  ∀ (e : Obj) n s (e' : Obj) s',
    import_wait fuel import_id e n s = (Val e', s') ->
    e' !! "import_status" = Some (PyStr "finished").
Proof.
  induction fuel as [|fuel IH]; intros e n s e' s';
    (destruct (e !! "import_status") as [st|] eqn:Hst;
     [rewrite (import_wait_step _ import_id e n s st Hst)
     |by rewrite (import_wait_no_status _ import_id e n s Hst)]);
    (destruct (is_finished st) eqn:Hfin;
     [intros [= <- <-]; by rewrite Hst, (is_finished_eq st Hfin)|]); [done|].
  cbv zeta. destruct (gl_project_imports_get _ import_id n); [done|]. apply IH.
Qed.

(** The export loop on a job that is "started" at the first fetch and at the
    next, and "finished" at the third. *)
Lemma export_wait_run fuel (project e0 e1 e2 : Obj) s :
  e0 !! "export_status" = Some (PyStr "started") ->
  gl_project_export_refresh (gl (self s)) project 1 = inr e1 ->
  e1 !! "export_status" = Some (PyStr "started") ->
  gl_project_export_refresh (gl (self s)) project 2 = inr e2 ->
  e2 !! "export_status" = Some (PyStr "finished") ->
  export_wait (S (S fuel)) project e0 1 s
  = (Val e2,
     after s [Sleep (delay_seconds (self s)); Api (project_export_refresh project);
              Sleep (delay_seconds (self s)); Api (project_export_refresh project)]).
Proof.
  intros H0 H1 H1s H2 H2s.
  rewrite (export_wait_step _ project e0 1 s _ H0). cbn [is_finished String.eqb Ascii.eqb Bool.eqb].
  cbv zeta. rewrite H1.
  rewrite (export_wait_step _ project e1 2 _ _ H1s). cbn [is_finished String.eqb Ascii.eqb Bool.eqb].
  cbv zeta. cbn [after self]. rewrite H2.
  rewrite (export_wait_step _ project e2 3 _ _ H2s). cbn [is_finished String.eqb Ascii.eqb Bool.eqb].
  unfold after. cbn [self fs trace]. by rewrite <- app_assoc.
Qed.

Lemma import_wait_run fuel import_id (e0 e1 e2 : Obj) s :
  e0 !! "import_status" = Some (PyStr "started") ->
  gl_project_imports_get (gl (self s)) import_id 1 = inr e1 ->
  e1 !! "import_status" = Some (PyStr "started") ->
  gl_project_imports_get (gl (self s)) import_id 2 = inr e2 ->
  e2 !! "import_status" = Some (PyStr "finished") ->
  import_wait (S (S fuel)) import_id e0 1 s
  = (Val e2,
     after s [Sleep (delay_seconds (self s)); Api (project_import_refresh import_id);
              Sleep (delay_seconds (self s)); Api (project_import_refresh import_id)]).
Proof.
  intros H0 H1 H1s H2 H2s.
  rewrite (import_wait_step _ import_id e0 1 s _ H0). cbn [is_finished String.eqb Ascii.eqb Bool.eqb].
  cbv zeta. rewrite H1.
  rewrite (import_wait_step _ import_id e1 2 _ _ H1s). cbn [is_finished String.eqb Ascii.eqb Bool.eqb].
  cbv zeta. cbn [after self]. rewrite H2.
  rewrite (import_wait_step _ import_id e2 3 _ _ H2s). cbn [is_finished String.eqb Ascii.eqb Bool.eqb].
  unfold after. cbn [self fs trace]. by rewrite <- app_assoc.
Qed.

(** The export of a project whose job is "started", "started", "finished". *)
Lemma export_project_run fl fuel s (project : Obj) (output_path : Path)
    p pwn id nm (created e0 e1 e2 : Obj) :
  project !! "path_with_namespace" = Some pwn ->
  project !! "id" = Some id ->
  project !! "name" = Some nm ->
  project !! "path" = Some (PyStr p) -> plain p = true ->
  output_path ∈ dirs (fs s) ->
  gl_project_exports_create (gl (self s)) project = inr created ->
  gl_project_export_refresh (gl (self s)) project 0 = inr e0 ->
  e0 !! "export_status" = Some (PyStr "started") ->
  gl_project_export_refresh (gl (self s)) project 1 = inr e1 ->
  e1 !! "export_status" = Some (PyStr "started") ->
  gl_project_export_refresh (gl (self s)) project 2 = inr e2 ->
  e2 !! "export_status" = Some (PyStr "finished") ->
  ∃ s',
    export_project fl (S (S fuel)) project (Some output_path) s = (Val tt, s')
    ∧ actions (trace s')
      = actions (trace s) ++
        [Api (project_exports_create project);
         Api (project_export_refresh project);
         Sleep (delay_seconds (self s));
         Api (project_export_refresh project);
         Sleep (delay_seconds (self s));
         Api (project_export_refresh project);
         Api (project_export_download project)].
Proof.
  intros Hpwn Hid Hname Hpath Hp Hd Hc H0 H0s H1 H1s H2 H2s.
  unfold export_project, getattr. rewrite Hpwn, Hid, Hname.
  unfold export_refresh, try_except, call, bind, lift, log, emit, get_self, ret.
  cbv beta iota zeta. cbn [self fs trace]. rewrite Hc.
  cbv beta iota. cbn [self fs trace]. rewrite H0.
  cbv beta iota. cbn [self fs trace].
  match goal with
  | |- context [export_wait _ project e0 1 ?st] =>
      rewrite (export_wait_run fuel project e0 e1 e2 st H0s H1 H1s H2 H2s)
  end.
  match goal with
  | |- context [export_project_download fl project output_path ?st] =>
      destruct (export_project_download_run fl st project output_path p nm
                  Hpath Hp Hname Hd) as (s' & Hrun & _ & _ & Htrace);
      rewrite Hrun
  end.
  exists s'. split; [reflexivity|]. rewrite Htrace.
  unfold actions, after. cbn [self fs trace].
  rewrite !List.filter_app. simpl. by rewrite <- !app_assoc.
Qed.

(** Waiting for an import whose job is "started", "started", "finished". *)
Lemma import_project_wait_done_run fuel s import_id (e0 e1 e2 : Obj) pwn :
  gl_project_imports_get (gl (self s)) import_id 0 = inr e0 ->
  e0 !! "import_status" = Some (PyStr "started") ->
  gl_project_imports_get (gl (self s)) import_id 1 = inr e1 ->
  e1 !! "import_status" = Some (PyStr "started") ->
  gl_project_imports_get (gl (self s)) import_id 2 = inr e2 ->
  e2 !! "import_status" = Some (PyStr "finished") ->
  e2 !! "path_with_namespace" = Some pwn ->
  __import_project_wait_done (S (S fuel)) import_id s
  = (Val tt,
     after s [Api (project_imports_get import_id);
              Sleep (delay_seconds (self s));
              Api (project_import_refresh import_id);
              Sleep (delay_seconds (self s));
              Api (project_import_refresh import_id);
              Log INFO "Import finished of '%s'" [pwn]]).
Proof.
  intros H0 H0s H1 H1s H2 H2s Hpwn.
  unfold __import_project_wait_done, try_except, call, bind, lift, log, emit,
    get_self, ret, getattr.
  cbv beta iota zeta. cbn [self fs trace]. rewrite H0.
  cbv beta iota. cbn [self fs trace].
  match goal with
  | |- context [import_wait _ import_id e0 1 ?st] =>
      rewrite (import_wait_run fuel import_id e0 e1 e2 st H0s H1 H1s H2 H2s)
  end.
  rewrite Hpwn. unfold ret, after. simpl. by rewrite <- !app_assoc.
Qed.

(** C3: each polling loop returns only with a job whose status is
    "finished".  On a job that answers "started", "started", "finished",
    the export of a project makes three status fetches with the delay slept
    between two fetches, then one download; waiting for an import makes
    three status fetches with the delay slept between two fetches, then
    logs the completion once. *)
Theorem polling_until_finished :
  (∀ fuel (project e : Obj) n s (e' : Obj) s',
     export_wait fuel project e n s = (Val e', s') ->
     e' !! "export_status" = Some (PyStr "finished"))
  ∧ (∀ fuel import_id (e : Obj) n s (e' : Obj) s',
       import_wait fuel import_id e n s = (Val e', s') ->
       e' !! "import_status" = Some (PyStr "finished"))
  ∧ (∀ fl fuel s (project : Obj) (output_path : Path) p pwn id nm
       (created e0 e1 e2 : Obj),
       project !! "path_with_namespace" = Some pwn ->
       project !! "id" = Some id ->
       project !! "name" = Some nm ->
       project !! "path" = Some (PyStr p) -> plain p = true ->
       bool_decide (output_path ∈ dirs (fs s)) = true ->
       gl_project_exports_create (gl (self s)) project = inr created ->
       gl_project_export_refresh (gl (self s)) project 0 = inr e0 ->
       e0 !! "export_status" = Some (PyStr "started") ->
       gl_project_export_refresh (gl (self s)) project 1 = inr e1 ->
       e1 !! "export_status" = Some (PyStr "started") ->
       gl_project_export_refresh (gl (self s)) project 2 = inr e2 ->
       e2 !! "export_status" = Some (PyStr "finished") ->
       ∃ s',
         export_project fl (S (S fuel)) project (Some output_path) s = (Val tt, s')
         ∧ actions (trace s')
           = actions (trace s) ++
             [Api (project_exports_create project);
              Api (project_export_refresh project);
              Sleep (delay_seconds (self s));
              Api (project_export_refresh project);
              Sleep (delay_seconds (self s));
              Api (project_export_refresh project);
              Api (project_export_download project)])
  ∧ (∀ fuel s import_id (e0 e1 e2 : Obj) pwn,
       gl_project_imports_get (gl (self s)) import_id 0 = inr e0 ->
       e0 !! "import_status" = Some (PyStr "started") ->
       gl_project_imports_get (gl (self s)) import_id 1 = inr e1 ->
       e1 !! "import_status" = Some (PyStr "started") ->
       gl_project_imports_get (gl (self s)) import_id 2 = inr e2 ->
       e2 !! "import_status" = Some (PyStr "finished") ->
       e2 !! "path_with_namespace" = Some pwn ->
       __import_project_wait_done (S (S fuel)) import_id s
       = (Val tt,
          after s [Api (project_imports_get import_id);
                   Sleep (delay_seconds (self s));
                   Api (project_import_refresh import_id);
                   Sleep (delay_seconds (self s));
                   Api (project_import_refresh import_id);
                   Log INFO "Import finished of '%s'" [pwn]])).
Proof.
  split; [intros; by eapply export_wait_exit|].
  split; [intros; by eapply import_wait_exit|].
  split.
  - intros fl fuel s project output_path p pwn id nm created e0 e1 e2
      Hpwn Hid Hname Hpath Hp Hd%bool_decide_eq_true. intros.
    by eapply export_project_run.
  - intros. by eapply import_project_wait_done_run.
Qed.

Lemma polling_until_finished_witness :
  Demo.job "export_status" 2%nat !! "export_status" = Some (PyStr "finished")
  ∧ Demo.job "import_status" 2%nat !! "import_status" = Some (PyStr "finished")
  ∧ (∃ s',
     export_project Posix 2%nat Demo.svc1 (Some ["exp"; "teamA"])
                    (Demo.start ["exp"; "teamA"])
     = (Val tt, s')
     ∧ actions (trace s')
       = actions (trace (Demo.start ["exp"; "teamA"])) ++
         [Api (project_exports_create Demo.svc1);
          Api (project_export_refresh Demo.svc1);
          Sleep (delay_seconds (self (Demo.start ["exp"; "teamA"])));
          Api (project_export_refresh Demo.svc1);
          Sleep (delay_seconds (self (Demo.start ["exp"; "teamA"])));
          Api (project_export_refresh Demo.svc1);
          Api (project_export_download Demo.svc1)])
  ∧ __import_project_wait_done 2%nat (PyInt 31) (Demo.start ["exp"; "teamA"])
    = (Val tt,
       after (Demo.start ["exp"; "teamA"])
         [Api (project_imports_get (PyInt 31));
          Sleep (delay_seconds (self (Demo.start ["exp"; "teamA"])));
          Api (project_import_refresh (PyInt 31));
          Sleep (delay_seconds (self (Demo.start ["exp"; "teamA"])));
          Api (project_import_refresh (PyInt 31));
          Log INFO "Import finished of '%s'" [PyStr "teamA/svc1"]]).
Proof.
  split.
  { apply (proj1 polling_until_finished 0%nat Demo.svc1 (Demo.job "export_status" 2%nat)
             3%nat (Demo.start ["exp"; "teamA"]) (Demo.job "export_status" 2%nat)
             (Demo.start ["exp"; "teamA"])).
    reflexivity. }
  split.
  { apply (proj1 (proj2 polling_until_finished) 0%nat (PyInt 31)
             (Demo.job "import_status" 2%nat) 3%nat (Demo.start ["exp"; "teamA"])
             (Demo.job "import_status" 2%nat) (Demo.start ["exp"; "teamA"])).
    reflexivity. }
  split.
  - apply (proj1 (proj2 (proj2 polling_until_finished)) Posix 0%nat
             (Demo.start ["exp"; "teamA"]) Demo.svc1 ["exp"; "teamA"] "svc1"
             (PyStr "teamA/svc1") (PyInt 21) (PyStr "Service 1")
             {[ "message" := PyStr "202 Accepted" ]}
             (Demo.job "export_status" 0%nat) (Demo.job "export_status" 1%nat)
             (Demo.job "export_status" 2%nat));
      reflexivity.
  - apply (proj2 (proj2 (proj2 polling_until_finished)) 0%nat
             (Demo.start ["exp"; "teamA"]) (PyInt 31)
             (Demo.job "import_status" 0%nat) (Demo.job "import_status" 1%nat)
             (Demo.job "import_status" 2%nat) (PyStr "teamA/svc1"));
      reflexivity.
Defined.

(** ** Namespaces *)






(** ** Lookups *)

Lemma get_project_failed s key e :
  gl_projects_get (gl (self s)) (PyStr key) = inl e ->
  get_project key s
  = (if is_GitlabGetError e then Val None else Exn e,
     after s [Api (projects_get (PyStr key))]).
Proof.
  intros H. unfold get_project, try_except, call, bind, lift, emit, get_self, ret, raise.
  simpl. rewrite H. simpl. by destruct (is_GitlabGetError e).
Qed.

Lemma get_group_failed s key e :
  gl_groups_get (gl (self s)) (PyStr key) = inl e ->
  get_group key s
  = (if is_GitlabGetError e then Val None else Exn e,
     after s [Api (groups_get (PyStr key))]).
Proof.
  intros H. unfold get_group, try_except, call, bind, lift, emit, get_self, ret, raise.
  simpl. rewrite H. simpl. by destruct (is_GitlabGetError e).
Qed.

Lemma get_group_found s key (group : Obj) :
  gl_groups_get (gl (self s)) (PyStr key) = inr group ->
  get_group key s = (Val (Some group), after s [Api (groups_get (PyStr key))]).
Proof.
  intros H. unfold get_group, try_except, call, bind, lift, emit, get_self, ret, raise.
  simpl. by rewrite H.
Qed.

(** ** Export of the root group *)

(** X1: an export of a group that the lookup does not find ends in the
    [RuntimeError] right after the lookup: nothing is slept, created or
    written, and the output folder of the object stays as it was. *)
Theorem exporting_unknown_group fl fuel gitlab_path s e :
  gl_groups_get (gl (self s)) (PyStr gitlab_path) = inl e ->
  is_GitlabGetError e = true ->
  exporting fl fuel gitlab_path s
  = (Exn (RuntimeError ("No such group: " +:+ gitlab_path)),
     after s [Api (groups_get (PyStr gitlab_path))]).
Proof.
  intros H He. unfold exporting, _export_group, bind at 1 2.
  rewrite (get_group_failed s gitlab_path e H), He. reflexivity.
Qed.

Lemma exporting_unknown_group_witness :
  exporting Posix 3 "nogroup" (Demo.start ["exp"])
  = (Exn (RuntimeError ("No such group: " +:+ "nogroup")),
     after (Demo.start ["exp"]) [Api (groups_get (PyStr "nogroup"))]).
Proof.
  apply (exporting_unknown_group Posix 3 "nogroup" (Demo.start ["exp"])
           (GitlabGetError "404 Group Not Found")); reflexivity.
Defined.

(** ** The metadata files *)

Lemma collect_metadata_lookup (obj : Obj) k :
  collect_metadata obj !! k
  = if bool_decide (k ∈ metadata_keys) then obj !! k else None.
Proof.
  unfold collect_metadata. rewrite collect_lookup, lookup_empty.
  destruct (bool_decide (k ∈ metadata_keys)); [|done]. by destruct (obj !! k).
Qed.

(** X2: an object without a name, or without a path, fails the assertion of
    [_write_metadata_file], and no file is created or changed. *)
Theorem write_metadata_file_asserts (obj : Obj) (filepath : Path) s :
  obj !! "name" = None ∨ obj !! "path" = None ->
  _write_metadata_file obj filepath s = (Exn (AssertionError ""), s).
Proof.
  intros H. unfold _write_metadata_file.
  rewrite collect_metadata_name, collect_metadata_path.
  destruct H as [H|H]; rewrite H.
  - rewrite (bool_decide_eq_false_2 (is_Some None)) by (by intros [? ?]). reflexivity.
  - destruct (obj !! "name") as [nm|].
    + rewrite (bool_decide_eq_true_2 (is_Some (Some nm))) by eauto.
      rewrite (bool_decide_eq_false_2 (is_Some None)) by (by intros [? ?]). reflexivity.
    + rewrite (bool_decide_eq_false_2 (is_Some None)) by (by intros [? ?]). reflexivity.
Qed.

Lemma write_metadata_file_asserts_witness :
  _write_metadata_file {[ "id" := PyInt 5; "path" := PyStr "svc" ]} ["exp"; "x.json"]
                       (Demo.start ["exp"])
  = (Exn (AssertionError ""), Demo.start ["exp"]).
Proof.
  apply (write_metadata_file_asserts {[ "id" := PyInt 5; "path" := PyStr "svc" ]}
           ["exp"; "x.json"] (Demo.start ["exp"])).
  left. reflexivity.
Defined.

(** X3: what [_write_metadata_file] writes, [_read_metadata_file] reads
    back: the dictionary holds, of the seven identity fields, those the
    object has, with the object's values, and no other attribute. *)
Theorem metadata_round_trip (obj : Obj) (d : Path) n s nm pth :
  obj !! "name" = Some nm -> obj !! "path" = Some pth ->
  bool_decide (d ∈ dirs (fs s)) = true ->
  ∃ s' (metadata : Obj),
    (_write_metadata_file obj (d ++ [n]) ;; _read_metadata_file (d ++ [n])) s
    = (Val metadata, s')
    ∧ (∀ k, metadata !! k
            = if bool_decide (k ∈ metadata_keys) then obj !! k else None)
    ∧ metadata !! "name" = Some nm ∧ metadata !! "path" = Some pth.
Proof.
  intros Hname Hpath Hd%bool_decide_eq_true.
  eexists _, (collect_metadata obj). split; [|split].
  - unfold bind at 1.
    rewrite (write_metadata_file_run obj d n s nm pth Hname Hpath Hd).
    unfold _read_metadata_file, open_read, bind, get_fs, ret. simpl.
    rewrite lookup_insert_eq. reflexivity.
  - apply collect_metadata_lookup.
  - by rewrite collect_metadata_name, collect_metadata_path.
Qed.

Lemma metadata_round_trip_witness :
  ∃ s' (metadata : Obj),
    (_write_metadata_file Demo.svc1 (["exp"] ++ ["svc1.json"]) ;;
     _read_metadata_file (["exp"] ++ ["svc1.json"])) (Demo.start ["exp"])
    = (Val metadata, s')
    ∧ (∀ k, metadata !! k
            = if bool_decide (k ∈ metadata_keys) then Demo.svc1 !! k else None)
    ∧ metadata !! "name" = Some (PyStr "Service 1")
    ∧ metadata !! "path" = Some (PyStr "svc1").
Proof.
  apply (metadata_round_trip Demo.svc1 ["exp"] "svc1.json" (Demo.start ["exp"])
           (PyStr "Service 1") (PyStr "svc1")); reflexivity.
Defined.

(** ** Import of one project *)

(** Reduction of the state bookkeeping between two steps of a run. *)
Ltac norm :=
  cbv beta iota zeta;
  cbn [after self fs trace dirs files gl delay_seconds export_folder].

Lemma read_metadata_file_run (p : Path) (d : Obj) s :
  files (fs s) !! p = Some (Json d) -> _read_metadata_file p s = (Val d, s).
Proof.
  intros H. unfold _read_metadata_file, open_read, bind, get_fs, ret. simpl.
  by rewrite H.
Qed.

(** X4: an archive without its sidecar file, or with a sidecar that has no
    [path], stops [_import_project] with an uncaught error ([FileNotFoundError],
    [KeyError]) before any request is made. *)
Theorem import_project_needs_sidecar fuel s (dir : Path) file namespace :
  (files (fs s) !! (dir ++ [file +:+ ".json"]) = None ->
   _import_project fuel (dir ++ [file]) namespace s
   = (Exn (FileNotFoundError (dir ++ [file +:+ ".json"])), s))
  ∧ (∀ metadata : Obj,
       files (fs s) !! (dir ++ [file +:+ ".json"]) = Some (Json metadata) ->
       metadata !! "path" = None ->
       _import_project fuel (dir ++ [file]) namespace s = (Exn (KeyError "path"), s)).
Proof.
  split.
  - intros H. unfold _import_project. rewrite project_metadata_path.
    unfold _read_metadata_file, open_read, bind, lift, get_fs, ret. simpl.
    by rewrite H.
  - intros metadata H Hpath. unfold _import_project. rewrite project_metadata_path.
    unfold bind at 1 2. unfold lift, ret.
    rewrite (read_metadata_file_run _ metadata s H).
    unfold bind, getitem. by rewrite Hpath.
Qed.

Lemma import_project_needs_sidecar_witness :
  _import_project 5 (["exp"; "teamA"] ++ ["project_lost.tar.gz"]) "teamA"
                  (Demo.start ["exp"; "teamA"])
  = (Exn (FileNotFoundError (["exp"; "teamA"] ++ ["project_lost.tar.gz" +:+ ".json"])),
     Demo.start ["exp"; "teamA"])
  ∧ _import_project 5 (["exp"] ++ ["project_a.tar.gz"]) "teamA"
                    (Cases.start Demo.remote Cases.damaged ["exp"])
    = (Exn (KeyError "path"), Cases.start Demo.remote Cases.damaged ["exp"]).
Proof.
  split.
  - apply (proj1 (import_project_needs_sidecar 5 (Demo.start ["exp"; "teamA"])
                    ["exp"; "teamA"] "project_lost.tar.gz" "teamA")).
    reflexivity.
  - apply (proj2 (import_project_needs_sidecar 5
                    (Cases.start Demo.remote Cases.damaged ["exp"])
                    ["exp"] "project_a.tar.gz" "teamA")
             {[ "name" := PyStr "A" ]}); reflexivity.
Defined.

(** The upload of an archive whose request fails. *)
Lemma import_project_upload_failed (filepath : Path) nm slug namespace s c e :
  files (fs s) !! filepath = Some c ->
  gl_projects_import_project (gl (self s)) c nm slug namespace = inl e ->
  is_GitlabError e = true ->
  __import_project_upload filepath nm slug namespace s
  = (Val PyNone,
     after s [Api (projects_import_project c nm slug namespace);
              Log ERROR "Problem importing project '%s': %s"
                  [PyStr (namespace +:+ "/" +:+ py_str slug); PyStr (error_message e)]]).
Proof.
  intros Hfile Hreply He.
  unfold __import_project_upload, open_read, try_except, call, bind, lift, log, emit,
    get_fs, get_self, ret, raise. simpl.
  rewrite Hfile. simpl. rewrite Hreply. simpl. rewrite He. simpl.
  unfold after. simpl. by rewrite <- app_assoc.
Qed.

(** X5: when the upload request of an archive fails with an API error, the
    error is logged and [import_project] returns: no import status is ever
    fetched. *)
Theorem import_project_upload_failure fuel (filepath : Path) nm slug namespace s c e :
  files (fs s) !! filepath = Some c ->
  gl_projects_import_project (gl (self s)) c nm slug namespace = inl e ->
  is_GitlabError e = true ->
  import_project fuel filepath nm slug namespace s
  = (Val tt,
     after s [Api (projects_import_project c nm slug namespace);
              Log ERROR "Problem importing project '%s': %s"
                  [PyStr (namespace +:+ "/" +:+ py_str slug); PyStr (error_message e)]]).
Proof.
  intros Hfile Hreply He. unfold import_project, bind.
  by rewrite (import_project_upload_failed filepath nm slug namespace s c e Hfile Hreply He).
Qed.

Lemma import_project_upload_failure_witness :
  import_project 5 ["exp"; "teamA"; "project_svc1.tar.gz"] (PyStr "Service 1")
                 (PyStr "svc1") "teamA" (Cases.start Cases.down Demo.disk ["exp"; "teamA"])
  = (Val tt,
     after (Cases.start Cases.down Demo.disk ["exp"; "teamA"])
       [Api (projects_import_project (Bytes "archive 1") (PyStr "Service 1")
                                     (PyStr "svc1") "teamA");
        Log ERROR "Problem importing project '%s': %s"
            [PyStr ("teamA" +:+ "/" +:+ py_str (PyStr "svc1"));
             PyStr (error_message (GitlabError "500 Internal Server Error"))]]).
Proof.
  apply (import_project_upload_failure 5 ["exp"; "teamA"; "project_svc1.tar.gz"]
           (PyStr "Service 1") (PyStr "svc1") "teamA"
           (Cases.start Cases.down Demo.disk ["exp"; "teamA"])
           (Bytes "archive 1") (GitlabError "500 Internal Server Error")); reflexivity.
Defined.

(** X6: an archive whose project does not exist yet is uploaded with the
    name and the path of its sidecar file under the namespace of its
    directory; on a job that answers "started", "started", "finished", three
    status fetches follow and the import is logged as finished. *)
Theorem import_project_new fuel s (dir : Path) file namespace (metadata : Obj)
    slug nm c e (result e0 e1 e2 : Obj) import_id pwn :
  files (fs s) !! (dir ++ [file +:+ ".json"]) = Some (Json metadata) ->
  metadata !! "path" = Some slug ->
  metadata !! "name" = Some nm ->
  gl_projects_get (gl (self s)) (PyStr (namespace +:+ "/" +:+ py_str slug)) = inl e ->
  is_GitlabGetError e = true ->
  files (fs s) !! (dir ++ [file]) = Some c ->
  gl_projects_import_project (gl (self s)) c nm slug namespace = inr result ->
  result !! "id" = Some import_id -> truthy import_id = true ->
  gl_project_imports_get (gl (self s)) import_id 0 = inr e0 ->
  e0 !! "import_status" = Some (PyStr "started") ->
  gl_project_imports_get (gl (self s)) import_id 1 = inr e1 ->
  e1 !! "import_status" = Some (PyStr "started") ->
  gl_project_imports_get (gl (self s)) import_id 2 = inr e2 ->
  e2 !! "import_status" = Some (PyStr "finished") ->
  e2 !! "path_with_namespace" = Some pwn ->
  _import_project (S (S fuel)) (dir ++ [file]) namespace s
  = (Val tt,
     after s [Api (projects_get (PyStr (namespace +:+ "/" +:+ py_str slug)));
              Log INFO "Importing project '%s' (%d MB) to '%s' ..."
                  [nm; PyStr (namespace +:+ "/" +:+ py_str slug)];
              Api (projects_import_project c nm slug namespace);
              Log INFO "Upload done. Remote import job is now in progress (id:%d)"
                  [import_id];
              Api (project_imports_get import_id);
              Sleep (delay_seconds (self s));
              Api (project_import_refresh import_id);
              Sleep (delay_seconds (self s));
              Api (project_import_refresh import_id);
              Log INFO "Import finished of '%s'" [pwn]]).
Proof.
  intros Hmeta Hpath Hname Hget He Hfile Hup Hid Htrue H0 H0s H1 H1s H2 H2s Hpwn.
  unfold _import_project. rewrite project_metadata_path.
  unfold bind at 1 2. unfold lift, ret.
  rewrite (read_metadata_file_run _ metadata s Hmeta).
  unfold bind at 1 2 3, getitem. rewrite Hpath, Hname. unfold ret.
  rewrite (get_project_failed s _ e Hget), He.
  unfold import_project, __import_project_upload, open_read, try_except, call, bind,
    lift, log, emit, get_fs, get_self, getitem, ret, raise.
  norm. rewrite Hfile. norm. rewrite Hfile. norm. rewrite Hup.
  norm. rewrite Hid. norm. rewrite Htrue.
  match goal with
  | |- context [__import_project_wait_done _ import_id ?st] =>
      rewrite (import_project_wait_done_run fuel st import_id e0 e1 e2 pwn
                 H0 H0s H1 H1s H2 H2s Hpwn)
  end.
  unfold after. norm. by rewrite <- !app_assoc.
Qed.

Lemma import_project_new_witness :
  _import_project 2 (["exp"; "teamA"; "sub1"] ++ ["project_svc2.tar.gz"]) "teamA/sub1"
                  (Demo.start ["exp"; "teamA"])
  = (Val tt,
     after (Demo.start ["exp"; "teamA"])
       [Api (projects_get (PyStr ("teamA/sub1" +:+ "/" +:+ py_str (PyStr "svc2"))));
        Log INFO "Importing project '%s' (%d MB) to '%s' ..."
            [PyStr "Service 2"; PyStr ("teamA/sub1" +:+ "/" +:+ py_str (PyStr "svc2"))];
        Api (projects_import_project (Bytes "archive 2") (PyStr "Service 2")
                                     (PyStr "svc2") "teamA/sub1");
        Log INFO "Upload done. Remote import job is now in progress (id:%d)"
            [PyInt 31];
        Api (project_imports_get (PyInt 31));
        Sleep (delay_seconds (self (Demo.start ["exp"; "teamA"])));
        Api (project_import_refresh (PyInt 31));
        Sleep (delay_seconds (self (Demo.start ["exp"; "teamA"])));
        Api (project_import_refresh (PyInt 31));
        Log INFO "Import finished of '%s'" [PyStr "teamA/svc1"]]).
Proof.
  apply (import_project_new 0 (Demo.start ["exp"; "teamA"]) ["exp"; "teamA"; "sub1"]
           "project_svc2.tar.gz" "teamA/sub1"
           {[ "name" := PyStr "Service 2"; "path" := PyStr "svc2" ]}
           (PyStr "svc2") (PyStr "Service 2") (Bytes "archive 2")
           (GitlabGetError "404 Project Not Found") {[ "id" := PyInt 31 ]}
           (Demo.job "import_status" 0) (Demo.job "import_status" 1)
           (Demo.job "import_status" 2) (PyInt 31) (PyStr "teamA/svc1"));
    reflexivity.
Defined.

(** ** Lookups that fail *)

(** X7: only "not found" is an answer of a lookup.  When the lookup of the
    project of an archive, or of the group to export, fails in any other way
    (a server error, a refused token), the failure is not caught: the import
    of the archive, respectively the export, ends in it right after the
    request, with nothing uploaded or written. *)
Theorem lookup_errors_abort s e :
  is_GitlabGetError e = false ->
  (∀ fuel (dir : Path) file namespace (metadata : Obj) slug nm,
     files (fs s) !! (dir ++ [file +:+ ".json"]) = Some (Json metadata) ->
     metadata !! "path" = Some slug ->
     metadata !! "name" = Some nm ->
     gl_projects_get (gl (self s)) (PyStr (namespace +:+ "/" +:+ py_str slug)) = inl e ->
     _import_project fuel (dir ++ [file]) namespace s
     = (Exn e, after s [Api (projects_get (PyStr (namespace +:+ "/" +:+ py_str slug)))]))
  ∧ (∀ fl fuel gitlab_path,
       gl_groups_get (gl (self s)) (PyStr gitlab_path) = inl e ->
       exporting fl fuel gitlab_path s
       = (Exn e, after s [Api (groups_get (PyStr gitlab_path))])).
Proof.
  intros He. split.
  - intros fuel dir file namespace metadata slug nm Hmeta Hpath Hname Hget.
    unfold _import_project. rewrite project_metadata_path.
    unfold bind at 1 2. unfold lift, ret.
    rewrite (read_metadata_file_run _ metadata s Hmeta).
    unfold bind at 1 2 3, getitem. rewrite Hpath, Hname. unfold ret.
    by rewrite (get_project_failed s _ e Hget), He.
  - intros fl fuel gitlab_path Hget. unfold exporting, _export_group, bind at 1 2.
    by rewrite (get_group_failed s gitlab_path e Hget), He.
Qed.

Lemma lookup_errors_abort_witness :
  _import_project 5 (["exp"; "teamA"] ++ ["project_svc1.tar.gz"]) "teamA"
                  (Cases.start Cases.down Demo.disk ["exp"; "teamA"])
  = (Exn (GitlabError "500 Internal Server Error"),
     after (Cases.start Cases.down Demo.disk ["exp"; "teamA"])
       [Api (projects_get (PyStr ("teamA" +:+ "/" +:+ py_str (PyStr "svc1"))))])
  ∧ exporting Posix 5 "teamA" (Cases.start Cases.down Demo.disk ["exp"])
    = (Exn (GitlabError "500 Internal Server Error"),
       after (Cases.start Cases.down Demo.disk ["exp"])
         [Api (groups_get (PyStr "teamA"))]).
Proof.
  split.
  - apply (proj1 (lookup_errors_abort (Cases.start Cases.down Demo.disk ["exp"; "teamA"])
                    (GitlabError "500 Internal Server Error") eq_refl)
             5%nat ["exp"; "teamA"] "project_svc1.tar.gz" "teamA"
             {[ "name" := PyStr "Service 1"; "path" := PyStr "svc1" ]}
             (PyStr "svc1") (PyStr "Service 1")); reflexivity.
  - apply (proj2 (lookup_errors_abort (Cases.start Cases.down Demo.disk ["exp"])
                    (GitlabError "500 Internal Server Error") eq_refl)
             Posix 5%nat "teamA"); reflexivity.
Defined.

(** ** The groups phase *)

(** The start of [_import_groups] on a directory with a metadata file. *)
Lemma import_groups_start fl root s (metadata : Obj) nm pth :
  files (fs s) !! (export_folder (self s) ++ ["metadata.json"]) = Some (Json metadata) ->
  metadata !! "name" = Some nm ->
  metadata !! "path" = Some pth ->
  given root = true ->
  _import_groups fl root s
  = (parent <-
       (found <- get_group (default "" root) ;;
        match found with
       | Some group =>
           id <- getattr group "id" ;;
           gn <- getattr group "name" ;;
           log INFO "Parent group found: %s (%d, '%s')" [PyStr (default "" root); id; gn] ;;
           ret (Some id)
       | None =>
           log ERROR "No such group '%s' (for this access token)! (make sure it exists!)"
               [PyStr (default "" root)] ;;
           ret None
       end) ;;
     match parent with
     | None => ret false
     | Some gitlab_group_parent_id =>
         (if truthy gitlab_group_parent_id
          then log INFO "Importing group '%s' with path '%s' as subgroup of parent_id=%s ..."
                   [nm; pth; PyStr (py_str gitlab_group_parent_id)]
          else log INFO "Importing group '%s' with path '%s' ..." [nm; pth]) ;;
         export_filepath <- __get_group_exportfile fl (export_folder (self s)) ;;
         log INFO "Loading from file '%s' ..." [PyStr (path_str fl export_filepath)] ;;
         fin <- open_read export_filepath ;;
         call (groups_import_group fin pth nm (PyStr (py_str gitlab_group_parent_id)))
              (fun g => gl_groups_import_group g fin pth nm
                          (PyStr (py_str gitlab_group_parent_id))) ;;
         log INFO "Group import of '%s' done." [nm] ;;
         ret true
     end) s.
Proof.
  intros Hfile Hname Hpath Hroot.
  assert (exists_ (fs s) (export_folder (self s) ++ ["metadata.json"]) = true) as Hex.
  { unfold exists_. rewrite Hfile.
    rewrite (bool_decide_eq_true_2 (is_Some (Some (Json metadata)))) by eauto.
    apply orb_true_r. }
  unfold _import_groups. unfold bind at 1 2. unfold get_self at 1.
  rewrite (check_accepts fl s Hex).
  unfold bind at 1. rewrite group_metadata_path.
  rewrite (read_metadata_file_run _ metadata s Hfile).
  unfold bind at 1 2, getitem. rewrite Hname, Hpath. unfold ret at 1 2.
  rewrite Hroot. reflexivity.
Qed.

(** X8: when the destination root does not resolve to a group, the import
    logs the error and returns normally after the one lookup: no group is
    imported and the projects phase does not run. *)
Theorem importing_unresolved_root fl fuel root s (metadata : Obj) nm pth e :
  files (fs s) !! (export_folder (self s) ++ ["metadata.json"]) = Some (Json metadata) ->
  metadata !! "name" = Some nm ->
  metadata !! "path" = Some pth ->
  given (Some root) = true ->
  gl_groups_get (gl (self s)) (PyStr root) = inl e ->
  is_GitlabGetError e = true ->
  importing fl fuel (Some root) false s
  = (Val tt,
     after s [Api (groups_get (PyStr root));
              Log ERROR "No such group '%s' (for this access token)! (make sure it exists!)"
                  [PyStr root]]).
Proof.
  intros Hfile Hname Hpath Hroot Hget He.
  unfold importing. unfold bind at 1. cbn [negb].
  rewrite (import_groups_start fl (Some root) s metadata nm pth Hfile Hname Hpath Hroot).
  change (default "" (Some root)) with root.
  unfold bind. rewrite (get_group_failed s root e Hget), He.
  unfold log, emit, ret, after. norm. by rewrite <- app_assoc.
Qed.

Lemma importing_unresolved_root_witness :
  importing Windows 5 (Some "nogroup") false (Demo.start ["exp"; "teamA"])
  = (Val tt,
     after (Demo.start ["exp"; "teamA"])
       [Api (groups_get (PyStr "nogroup"));
        Log ERROR "No such group '%s' (for this access token)! (make sure it exists!)"
            [PyStr "nogroup"]]).
Proof.
  apply (importing_unresolved_root Windows 5 "nogroup" (Demo.start ["exp"; "teamA"])
           {[ "name" := PyStr "Team A"; "path" := PyStr "teamA" ]}
           (PyStr "Team A") (PyStr "teamA") (GitlabGetError "404 Group Not Found"));
    reflexivity.
Defined.



(** ** Export: the root group *)

Lemma group_archive_component p :
  plain p = true -> component ("group_" +:+ p +:+ ".tar.gz") = true.
Proof.
  intros Hp. unfold component. apply andb_true_iff. split; [done|].
  by rewrite !plain_app, Hp.
Qed.

Lemma joinpath_component fl (d : Path) x :
  component x = true -> joinpath fl d x = d ++ [x].
Proof. intros Hx. unfold joinpath. by rewrite (Path_of_component fl x Hx). Qed.

(** X10: the export of a root group that is found, whose export job is
    created and whose archive downloads: the object's output folder becomes
    [<folder>/<path>], which exists afterwards and holds the archive
    [group_<path>.tar.gz] and the group's [metadata.json]; the delay is slept
    once, between the creation of the job and the download. *)
Theorem export_group_layout fl gitlab_path s (group exporter : Obj) nm p msg data :
  gl_groups_get (gl (self s)) (PyStr gitlab_path) = inr group ->
  group !! "name" = Some nm ->
  group !! "path" = Some (PyStr p) -> component p = true ->
  gl_group_exports_create (gl (self s)) group = inr exporter ->
  exporter !! "message" = Some msg ->
  gl_group_export_download (gl (self s)) group = inr data ->
  ∃ s',
    _export_group fl gitlab_path s = (Val group, s')
    ∧ export_folder (self s') = export_folder (self s) ++ [p]
    ∧ export_folder (self s) ++ [p] ∈ dirs (fs s')
    ∧ files (fs s') !! (export_folder (self s) ++ [p] ++ ["group_" +:+ p +:+ ".tar.gz"])
      = Some (Bytes data)
    ∧ files (fs s') !! (export_folder (self s) ++ [p] ++ ["metadata.json"])
      = Some (Json (collect_metadata group))
    ∧ actions (trace s')
      = actions (trace s) ++
        [Api (groups_get (PyStr gitlab_path));
         Api (group_exports_create group);
         Sleep (delay_seconds (self s));
         Api (group_export_download group)].
Proof.
  intros Hget Hname Hpath Hp Hc Hmsg Hd.
  pose proof (component_plain p Hp) as Hplain.
  unfold _export_group. unfold bind at 1. rewrite (get_group_found s _ group Hget).
  unfold try_except, call, sleep, set_export_folder, makedirs, open_write, write,
    as_str, bind, lift, getattr, log, emit, get_fs, put_fs, get_self, ret, raise.
  rewrite Hname, Hpath. unfold after. norm. rewrite Hc. norm.
  change (py_str (PyStr p)) with p.
  rewrite (joinpath_component fl _ p Hp).
  rewrite (joinpath_component fl _ _ (group_archive_component p Hplain)).
  rewrite group_metadata_path, removelast_last.
  rewrite (bool_decide_eq_true_2
             (export_folder (self s) ++ [p]
              ∈ list_to_set (prefixes (export_folder (self s) ++ [p])) ∪ dirs (fs s)))
    by apply elem_of_union_l, elem_of_list_to_set, elem_of_prefixes.
  norm. rewrite Hd. norm.
  match goal with
  | |- context [_write_metadata_file group (?d ++ [?n]) ?st] =>
      rewrite (write_metadata_file_run group d n st nm (PyStr p) Hname Hpath)
        by apply elem_of_union_l, elem_of_list_to_set, elem_of_prefixes
  end.
  norm. rewrite Hmsg. norm.
  eexists. split; [reflexivity|]. norm.
  split; [reflexivity|].
  split; [apply elem_of_union_l, elem_of_list_to_set, elem_of_prefixes|].
  rewrite !app_assoc. split; [|split].
  - assert ((export_folder (self s) ++ [p]) ++ ["metadata.json"]
            ≠ (export_folder (self s) ++ [p]) ++ ["group_" +:+ p +:+ ".tar.gz"]) as Hne.
    { intros H%app_inv_head. rewrite append_cons in H. discriminate H. }
    by rewrite (lookup_insert_ne _ _ _ _ Hne), (lookup_insert_ne _ _ _ _ Hne),
      lookup_insert_eq.
  - by rewrite lookup_insert_eq.
  - unfold actions. rewrite <- ?app_assoc, ?List.filter_app. reflexivity.
Qed.

Lemma export_group_layout_witness :
  ∃ s',
    _export_group Posix "teamA" (Cases.start (Cases.stalling None) Demo.disk ["out"])
    = (Val Demo.teamA, s')
    ∧ export_folder (self s')
      = export_folder (self (Cases.start (Cases.stalling None) Demo.disk ["out"]))
        ++ ["teamA"]
    ∧ export_folder (self (Cases.start (Cases.stalling None) Demo.disk ["out"]))
      ++ ["teamA"] ∈ dirs (fs s')
    ∧ files (fs s')
      !! (export_folder (self (Cases.start (Cases.stalling None) Demo.disk ["out"]))
          ++ ["teamA"] ++ ["group_" +:+ "teamA" +:+ ".tar.gz"])
      = Some (Bytes "group archive")
    ∧ files (fs s')
      !! (export_folder (self (Cases.start (Cases.stalling None) Demo.disk ["out"]))
          ++ ["teamA"] ++ ["metadata.json"])
      = Some (Json (collect_metadata Demo.teamA))
    ∧ actions (trace s')
      = actions (trace (Cases.start (Cases.stalling None) Demo.disk ["out"])) ++
        [Api (groups_get (PyStr "teamA"));
         Api (group_exports_create Demo.teamA);
         Sleep (delay_seconds (self (Cases.start (Cases.stalling None) Demo.disk ["out"])));
         Api (group_export_download Demo.teamA)].
Proof.
  apply (export_group_layout Posix "teamA"
           (Cases.start (Cases.stalling None) Demo.disk ["out"]) Demo.teamA
           {[ "message" := PyStr "202 Accepted" ]} (PyStr "Team A") "teamA"
           (PyStr "202 Accepted") "group archive"); reflexivity.
Defined.

(** ** Export: failures of a project's job *)

(** The start of [export_project]: the log line and the creation of the
    job. *)
Lemma export_project_start fl fuel s (project : Obj) output_path pwn id nm :
  project !! "path_with_namespace" = Some pwn ->
  project !! "id" = Some id ->
  project !! "name" = Some nm ->
  export_project fl fuel project output_path s
  = (created <-
       try_except
         (_ <- call (project_exports_create project)
                    (fun g => gl_project_exports_create g project) ;;
          exporter <- export_refresh project 0 ;;
          ret (Some exporter))
         is_GitlabError
         (fun ex =>
            pth <- getattr project "path" ;;
            log ERROR "Problem creating export for '%s': %s"
                [pth; PyStr (error_message ex)] ;;
            ret None) ;;
     match created with
     | None => ret tt
     | Some exporter =>
         waited <-
           try_except
             (exporter' <- export_wait fuel project exporter 1 ;;
              ret (Some exporter'))
             is_GitlabError
             (fun ex =>
                pth <- getattr project "path" ;;
                log ERROR "Problem getting status for '%s': %s"
                    [pth; PyStr (error_message ex)] ;;
                ret None) ;;
         match waited with
         | None => ret tt
         | Some _ =>
             export_project_download fl project
               (match output_path with
                | Some p => p
                | None => export_folder (self s)
                end)
         end
     end)
    (after s [Log INFO "Project export for '%s' (%d, '%s')..." [pwn; id; nm]]).
Proof.
  intros Hpwn Hid Hname. unfold export_project.
  unfold bind at 1 2 3 4 5. unfold get_self, getattr. rewrite Hpwn, Hid, Hname.
  reflexivity.
Qed.

(** X11: when the export job of a project cannot be created, or its first
    status fetch fails, with an API error, the error is logged and
    [export_project] returns: nothing is downloaded and no file is written. *)
Theorem export_project_job_not_created fl fuel s (project : Obj) output_path
    pwn id nm pth e :
  project !! "path_with_namespace" = Some pwn ->
  project !! "id" = Some id ->
  project !! "name" = Some nm ->
  project !! "path" = Some pth ->
  is_GitlabError e = true ->
  (gl_project_exports_create (gl (self s)) project = inl e ->
   export_project fl fuel project output_path s
   = (Val tt,
      after s [Log INFO "Project export for '%s' (%d, '%s')..." [pwn; id; nm];
               Api (project_exports_create project);
               Log ERROR "Problem creating export for '%s': %s"
                   [pth; PyStr (error_message e)]]))
  ∧ (∀ created : Obj,
       gl_project_exports_create (gl (self s)) project = inr created ->
       gl_project_export_refresh (gl (self s)) project 0 = inl e ->
       export_project fl fuel project output_path s
       = (Val tt,
          after s [Log INFO "Project export for '%s' (%d, '%s')..." [pwn; id; nm];
                   Api (project_exports_create project);
                   Api (project_export_refresh project);
                   Log ERROR "Problem creating export for '%s': %s"
                       [pth; PyStr (error_message e)]])).
Proof.
  intros Hpwn Hid Hname Hpath He. split.
  - intros Hc. rewrite (export_project_start fl fuel s project output_path pwn id nm)
      by done.
    unfold export_refresh, try_except, call, bind, lift, log, emit, get_self, getattr,
      ret, raise.
    unfold after. norm. rewrite Hc. norm. rewrite He, Hpath. norm.
    by rewrite <- !app_assoc.
  - intros created Hc Hr.
    rewrite (export_project_start fl fuel s project output_path pwn id nm) by done.
    unfold export_refresh, try_except, call, bind, lift, log, emit, get_self, getattr,
      ret, raise.
    unfold after. norm. rewrite Hc. norm. rewrite Hr. norm. rewrite He, Hpath. norm.
    by rewrite <- !app_assoc.
Qed.

Lemma export_project_job_not_created_witness :
  export_project Posix 5 Demo.svc1 None (Cases.start Cases.down Demo.disk ["exp"])
  = (Val tt,
     after (Cases.start Cases.down Demo.disk ["exp"])
       [Log INFO "Project export for '%s' (%d, '%s')..."
            [PyStr "teamA/svc1"; PyInt 21; PyStr "Service 1"];
        Api (project_exports_create Demo.svc1);
        Log ERROR "Problem creating export for '%s': %s"
            [PyStr "svc1"; PyStr (error_message (GitlabError "500 Internal Server Error"))]])
  ∧ export_project Posix 5 Demo.svc1 None
      (Cases.start (Cases.stalling (Some 0%nat)) Demo.disk ["exp"])
    = (Val tt,
       after (Cases.start (Cases.stalling (Some 0%nat)) Demo.disk ["exp"])
         [Log INFO "Project export for '%s' (%d, '%s')..."
              [PyStr "teamA/svc1"; PyInt 21; PyStr "Service 1"];
          Api (project_exports_create Demo.svc1);
          Api (project_export_refresh Demo.svc1);
          Log ERROR "Problem creating export for '%s': %s"
              [PyStr "svc1"; PyStr (error_message (GitlabError "502 Bad Gateway"))]]).
Proof.
  split.
  - apply (proj1 (export_project_job_not_created Posix 5
                    (Cases.start Cases.down Demo.disk ["exp"]) Demo.svc1 None
                    (PyStr "teamA/svc1") (PyInt 21) (PyStr "Service 1") (PyStr "svc1")
                    (GitlabError "500 Internal Server Error")
                    eq_refl eq_refl eq_refl eq_refl eq_refl)).
    reflexivity.
  - apply (proj2 (export_project_job_not_created Posix 5
                    (Cases.start (Cases.stalling (Some 0%nat)) Demo.disk ["exp"])
                    Demo.svc1 None
                    (PyStr "teamA/svc1") (PyInt 21) (PyStr "Service 1") (PyStr "svc1")
                    (GitlabError "502 Bad Gateway")
                    eq_refl eq_refl eq_refl eq_refl eq_refl)
             {[ "message" := PyStr "202 Accepted" ]}); reflexivity.
Defined.

(** X12: when a status fetch of the polling loop fails with an API error,
    the error is logged and [export_project] returns: nothing is downloaded
    and no file is written. *)
Theorem export_project_poll_failure fl fuel s (project : Obj) output_path
    pwn id nm pth (created e0 : Obj) st e :
  project !! "path_with_namespace" = Some pwn ->
  project !! "id" = Some id ->
  project !! "name" = Some nm ->
  project !! "path" = Some pth ->
  gl_project_exports_create (gl (self s)) project = inr created ->
  gl_project_export_refresh (gl (self s)) project 0 = inr e0 ->
  e0 !! "export_status" = Some st -> is_finished st = false ->
  gl_project_export_refresh (gl (self s)) project 1 = inl e ->
  is_GitlabError e = true ->
  export_project fl (S fuel) project output_path s
  = (Val tt,
     after s [Log INFO "Project export for '%s' (%d, '%s')..." [pwn; id; nm];
              Api (project_exports_create project);
              Api (project_export_refresh project);
              Sleep (delay_seconds (self s));
              Api (project_export_refresh project);
              Log ERROR "Problem getting status for '%s': %s"
                  [pth; PyStr (error_message e)]]).
Proof.
  intros Hpwn Hid Hname Hpath Hc H0 Hst Hfin H1 He.
  rewrite (export_project_start fl (S fuel) s project output_path pwn id nm) by done.
  unfold export_refresh, try_except, call, bind, lift, log, emit, get_self, getattr,
    ret, raise.
  unfold after. norm. rewrite Hc. norm. rewrite H0. norm.
  match goal with
  | |- context [export_wait (S fuel) project e0 1 ?s1] =>
      rewrite (export_wait_step (S fuel) project e0 1 s1 st Hst)
  end.
  rewrite Hfin. unfold after. norm. rewrite H1. norm. rewrite He, Hpath. norm.
  by rewrite <- !app_assoc.
Qed.

Lemma export_project_poll_failure_witness :
  export_project Posix 1 Demo.svc1 None
    (Cases.start (Cases.stalling (Some 1%nat)) Demo.disk ["exp"])
  = (Val tt,
     after (Cases.start (Cases.stalling (Some 1%nat)) Demo.disk ["exp"])
       [Log INFO "Project export for '%s' (%d, '%s')..."
            [PyStr "teamA/svc1"; PyInt 21; PyStr "Service 1"];
        Api (project_exports_create Demo.svc1);
        Api (project_export_refresh Demo.svc1);
        Sleep (delay_seconds (self (Cases.start (Cases.stalling (Some 1%nat))
                                      Demo.disk ["exp"])));
        Api (project_export_refresh Demo.svc1);
        Log ERROR "Problem getting status for '%s': %s"
            [PyStr "svc1"; PyStr (error_message (GitlabError "502 Bad Gateway"))]]).
Proof.
  apply (export_project_poll_failure Posix 0
           (Cases.start (Cases.stalling (Some 1%nat)) Demo.disk ["exp"]) Demo.svc1 None
           (PyStr "teamA/svc1") (PyInt 21) (PyStr "Service 1") (PyStr "svc1")
           {[ "message" := PyStr "202 Accepted" ]}
           {[ "export_status" := PyStr "started" ]} (PyStr "started")
           (GitlabError "502 Bad Gateway")); reflexivity.
Defined.

(** X13: the lookup of a listed project is not guarded: when it fails, for
    whatever reason, [_export_projects] ends in that error, and neither this
    project nor the ones after it in the listing are exported. *)
Theorem export_projects_lookup_failure fl fuel s (group listed : Obj) rest
    output_path full_path id e :
  gl_group_projects_list (gl (self s)) group = inr (listed :: rest) ->
  group !! "full_path" = Some full_path ->
  listed !! "id" = Some id ->
  gl_projects_get (gl (self s)) id = inl e ->
  _export_projects fl fuel group output_path s
  = (Exn e,
     after s [Api (group_projects_list group);
              Log INFO "#%d projects in '%s'"
                  [PyInt (Z.of_nat (length (listed :: rest))); full_path];
              Api (projects_get id)]).
Proof.
  intros Hlist Hfp Hid Hget.
  unfold _export_projects, call, bind, lift, log, emit, get_self, getattr, ret, raise.
  norm. rewrite Hlist. norm. rewrite Hfp. norm.
  cbn [for_each]. unfold call, bind, lift, emit, get_self, getattr, ret, raise.
  rewrite Hid. norm. rewrite Hget. unfold after. norm. by rewrite <- !app_assoc.
Qed.

Lemma export_projects_lookup_failure_witness :
  _export_projects Posix 5 Demo.teamA None (Cases.start Cases.down Demo.disk ["exp"])
  = (Exn (GitlabError "500 Internal Server Error"),
     after (Cases.start Cases.down Demo.disk ["exp"])
       [Api (group_projects_list Demo.teamA);
        Log INFO "#%d projects in '%s'"
            [PyInt (Z.of_nat (length (Cases.listed :: []))); PyStr "teamA"];
        Api (projects_get (PyInt 21))]).
Proof.
  apply (export_projects_lookup_failure Posix 5
           (Cases.start Cases.down Demo.disk ["exp"]) Demo.teamA Cases.listed []
           None (PyStr "teamA") (PyInt 21) (GitlabError "500 Internal Server Error"));
    reflexivity.
Defined.

(** ** Jobs that never finish *)

Lemma export_wait_stalls (g : Gitlab) (project : Obj) :
  (∀ n, ∃ (e : Obj) st,
     gl_project_export_refresh g project n = inr e
     ∧ e !! "export_status" = Some st ∧ is_finished st = false) ->
  ∀ fuel (e0 : Obj) st0 n s,
    gl (self s) = g ->
    e0 !! "export_status" = Some st0 -> is_finished st0 = false ->
    export_wait fuel project e0 n s
    = (OutOfFuel,
       after s (concat (List.repeat [Sleep (delay_seconds (self s));
                                     Api (project_export_refresh project)] fuel))).
Proof.
  intros Hg. induction fuel as [|fuel IH]; intros e0 st0 n s Hs Hst Hfin.
  - rewrite (export_wait_step _ project e0 n s st0 Hst), Hfin.
    unfold after. simpl. by rewrite app_nil_r; destruct s.
  - rewrite (export_wait_step _ project e0 n s st0 Hst), Hfin. cbv zeta.
    destruct (Hg n) as (e & st & Hreply & Hst' & Hfin'). rewrite Hs, Hreply.
    match goal with
    | |- context [export_wait fuel project e (S n) ?s1] =>
        rewrite (IH e st (S n) s1 Hs Hst' Hfin')
    end.
    unfold after. simpl. by rewrite <- app_assoc.
Qed.

Lemma import_wait_stalls (g : Gitlab) import_id :
  (∀ n, ∃ (e : Obj) st,
     gl_project_imports_get g import_id n = inr e
     ∧ e !! "import_status" = Some st ∧ is_finished st = false) ->
  ∀ fuel (e0 : Obj) st0 n s,
    gl (self s) = g ->
    e0 !! "import_status" = Some st0 -> is_finished st0 = false ->
    import_wait fuel import_id e0 n s
    = (OutOfFuel,
       after s (concat (List.repeat [Sleep (delay_seconds (self s));
                                     Api (project_import_refresh import_id)] fuel))).
Proof.
  intros Hg. induction fuel as [|fuel IH]; intros e0 st0 n s Hs Hst Hfin.
  - rewrite (import_wait_step _ import_id e0 n s st0 Hst), Hfin.
    unfold after. simpl. by rewrite app_nil_r; destruct s.
  - rewrite (import_wait_step _ import_id e0 n s st0 Hst), Hfin. cbv zeta.
    destruct (Hg n) as (e & st & Hreply & Hst' & Hfin'). rewrite Hs, Hreply.
    match goal with
    | |- context [import_wait fuel import_id e (S n) ?s1] =>
        rewrite (IH e st (S n) s1 Hs Hst' Hfin')
    end.
    unfold after. simpl. by rewrite <- app_assoc.
Qed.

(** X14: the polling loops have no bound of their own: on a job whose every
    status fetch succeeds with a status other than "finished", no number of
    rounds makes a loop return; each round sleeps the delay and fetches the
    status once. *)
Theorem polling_never_gives_up s (project : Obj) import_id :
  ((∀ n, ∃ (e : Obj) st,
      gl_project_export_refresh (gl (self s)) project n = inr e
      ∧ e !! "export_status" = Some st ∧ is_finished st = false) ->
   ∀ fuel (e0 : Obj) st0 n,
     e0 !! "export_status" = Some st0 -> is_finished st0 = false ->
     export_wait fuel project e0 n s
     = (OutOfFuel,
        after s (concat (List.repeat [Sleep (delay_seconds (self s));
                                      Api (project_export_refresh project)] fuel))))
  ∧ ((∀ n, ∃ (e : Obj) st,
        gl_project_imports_get (gl (self s)) import_id n = inr e
        ∧ e !! "import_status" = Some st ∧ is_finished st = false) ->
     ∀ fuel (e0 : Obj) st0 n,
       e0 !! "import_status" = Some st0 -> is_finished st0 = false ->
       import_wait fuel import_id e0 n s
       = (OutOfFuel,
          after s (concat (List.repeat [Sleep (delay_seconds (self s));
                                        Api (project_import_refresh import_id)] fuel)))).
Proof.
  split; intros Hg fuel e0 st0 n Hst Hfin.
  - by eapply export_wait_stalls.
  - by eapply import_wait_stalls.
Qed.

Lemma polling_never_gives_up_witness :
  export_wait 3 Demo.svc1 {[ "export_status" := PyStr "started" ]} 1
              (Cases.start (Cases.stalling None) Demo.disk ["exp"])
  = (OutOfFuel,
     after (Cases.start (Cases.stalling None) Demo.disk ["exp"])
       (concat (List.repeat
                  [Sleep (delay_seconds (self (Cases.start (Cases.stalling None)
                                                 Demo.disk ["exp"])));
                   Api (project_export_refresh Demo.svc1)] 3)))
  ∧ import_wait 3 (PyInt 31) {[ "import_status" := PyStr "scheduled" ]} 1
                (Cases.start (Cases.stalling None) Demo.disk ["exp"])
    = (OutOfFuel,
       after (Cases.start (Cases.stalling None) Demo.disk ["exp"])
         (concat (List.repeat
                    [Sleep (delay_seconds (self (Cases.start (Cases.stalling None)
                                                   Demo.disk ["exp"])));
                     Api (project_import_refresh (PyInt 31))] 3))).
Proof.
  split.
  - apply (proj1 (polling_never_gives_up
                    (Cases.start (Cases.stalling None) Demo.disk ["exp"])
                    Demo.svc1 (PyInt 31))
             (fun n => ex_intro _ {[ "export_status" := PyStr "started" ]}
                         (ex_intro _ (PyStr "started")
                            (conj eq_refl (conj eq_refl eq_refl))))
             3%nat {[ "export_status" := PyStr "started" ]} (PyStr "started") 1%nat);
      reflexivity.
  - apply (proj2 (polling_never_gives_up
                    (Cases.start (Cases.stalling None) Demo.disk ["exp"])
                    Demo.svc1 (PyInt 31))
             (fun n => ex_intro _ {[ "import_status" := PyStr "scheduled" ]}
                         (ex_intro _ (PyStr "scheduled")
                            (conj eq_refl (conj eq_refl eq_refl))))
             3%nat {[ "import_status" := PyStr "scheduled" ]} (PyStr "scheduled") 1%nat);
      reflexivity.
Defined.

(** ** Export: a subgroup *)

(** X15: a subgroup without projects and subgroups of its own gets, below
    the output path of its parent, a directory named by its path with the
    [metadata.json] of its full object in it; the requests made are the two
    listings and the lookup, and the listing of its own subgroups. *)
Theorem export_subgroup_layout fl fuel s (group listed full : Obj) (out : Path)
    id p nm full_path :
  gl_group_subgroups_list (gl (self s)) group = inr [listed] ->
  listed !! "id" = Some id ->
  gl_groups_get (gl (self s)) id = inr full ->
  full !! "path" = Some (PyStr p) -> component p = true ->
  full !! "name" = Some nm ->
  full !! "full_path" = Some full_path ->
  gl_group_projects_list (gl (self s)) full = inr [] ->
  gl_group_subgroups_list (gl (self s)) full = inr [] ->
  ∃ s',
    _export_subprojects_recursive fl (S fuel) group (Some out) s = (Val tt, s')
    ∧ out ++ [p] ∈ dirs (fs s')
    ∧ files (fs s') !! (out ++ [p] ++ ["metadata.json"])
      = Some (Json (collect_metadata full))
    ∧ actions (trace s')
      = actions (trace s) ++
        [Api (group_subgroups_list group);
         Api (groups_get id);
         Api (group_projects_list full);
         Api (group_subgroups_list full)].
Proof.
  intros Hsub Hid Hget Hpath Hp Hname Hfp Hprojects Hleaf.
  cbn [_export_subprojects_recursive].
  unfold call, bind at 1 2 3 4 5, lift, emit, get_self, ret. norm.
  rewrite Hsub. norm. cbn [for_each].
  unfold call, makedirs, as_str, bind at 1 2 3 4 5 6 7 8 9, lift, emit, getattr,
    get_fs, put_fs, get_self, ret, raise.
  rewrite Hid. norm. rewrite Hget. norm. rewrite Hpath. norm.
  rewrite (joinpath_component fl out p Hp), group_metadata_path.
  unfold bind at 1.
  match goal with
  | |- context [_write_metadata_file full (?d ++ [?n]) ?st] =>
      rewrite (write_metadata_file_run full d n st nm (PyStr p) Hname Hpath)
        by apply elem_of_union_l, elem_of_list_to_set, elem_of_prefixes
  end.
  unfold _export_projects, call, bind, lift, log, emit, getattr, get_self, ret, raise.
  norm. rewrite Hprojects. norm. rewrite Hfp. norm. cbn [for_each]. unfold ret. norm.
  destruct fuel; cbn [_export_subprojects_recursive];
    unfold call, bind, lift, emit, get_self, ret; norm; rewrite Hleaf; norm;
    cbn [for_each]; unfold ret; norm;
    (eexists; split; [reflexivity|]; norm;
     split; [apply elem_of_union_l, elem_of_list_to_set, elem_of_prefixes|];
     split; [by rewrite app_assoc, lookup_insert_eq|];
     unfold actions; rewrite <- ?app_assoc, ?List.filter_app; reflexivity).
Qed.

Lemma export_subgroup_layout_witness :
  ∃ s',
    _export_subprojects_recursive Posix 1 Demo.teamA (Some ["out"; "teamA"])
      (Cases.start Cases.tree Demo.disk ["out"; "teamA"])
    = (Val tt, s')
    ∧ ["out"; "teamA"] ++ ["sub1"] ∈ dirs (fs s')
    ∧ files (fs s') !! (["out"; "teamA"] ++ ["sub1"] ++ ["metadata.json"])
      = Some (Json (collect_metadata Cases.sub1))
    ∧ actions (trace s')
      = actions (trace (Cases.start Cases.tree Demo.disk ["out"; "teamA"])) ++
        [Api (group_subgroups_list Demo.teamA);
         Api (groups_get (PyInt 12));
         Api (group_projects_list Cases.sub1);
         Api (group_subgroups_list Cases.sub1)].
Proof.
  apply (export_subgroup_layout Posix 0 (Cases.start Cases.tree Demo.disk ["out"; "teamA"])
           Demo.teamA {[ "id" := PyInt 12 ]} Cases.sub1 ["out"; "teamA"]
           (PyInt 12) "sub1" (PyStr "Sub 1") (PyStr "teamA/sub1")); reflexivity.
Defined.

(** ** File names and patterns *)









(** ** Namespaces of the walk *)







(** ** What the runs keep

    A relation between the first and the last state of a run that holds
    across every step is kept by the functions of the class; so is a set of
    exceptions that contains what the unguarded steps can raise. *)

Lemma export_wait_eq fuel (project exporter : Obj) n :
  export_wait fuel project exporter n
  = (st <- getattr exporter "export_status" ;;
     if is_finished st then ret exporter
     else match fuel with
          | O => out_of_fuel
          | S fuel' =>
              me <- get_self ;;
              sleep (delay_seconds me) ;;
              exporter' <- export_refresh project n ;;
              export_wait fuel' project exporter' (S n)
          end).
Proof. by destruct fuel. Qed.

Lemma import_wait_eq fuel import_id (importer : Obj) n :
  import_wait fuel import_id importer n
  = (st <- getattr importer "import_status" ;;
     if is_finished st then ret importer
     else match fuel with
          | O => out_of_fuel
          | S fuel' =>
              me <- get_self ;;
              sleep (delay_seconds me) ;;
              importer' <- call (project_import_refresh import_id)
                                (fun g => gl_project_imports_get g import_id n) ;;
              import_wait fuel' import_id importer' (S n)
          end).
Proof. by destruct fuel. Qed.

Section Keeps.

Variable R : state -> state -> Prop.
Hypothesis R_refl : ∀ s, R s s.
Hypothesis R_trans : ∀ s1 s2 s3, R s1 s2 -> R s2 s3 -> R s1 s3.
(** every event but the requests of a group export job may be added *)
Hypothesis R_emit : ∀ s e, is_group_export e = false -> R s (after s [e]).

Lemma keeps_ret {A} E (a : A) : keeps R E (ret a).
Proof. intros s. split; [apply R_refl | done]. Qed.

Lemma keeps_raise {A} (E : exn -> Prop) e : E e -> keeps R E (@raise A e).
Proof. intros He s. split; [apply R_refl | by intros ? [= <-]]. Qed.

Lemma keeps_out_of_fuel {A} E : keeps R E (@out_of_fuel A).
Proof. intros s. split; [apply R_refl | done]. Qed.

Lemma keeps_bind {A B} E (m : M A) (k : A -> M B) :
  keeps R E m -> (∀ a, keeps R E (k a)) -> keeps R E (bind m k).
Proof.
  intros Hm Hk s. destruct (Hm s) as [HR HE]. unfold bind.
  destruct (m s) as [[a|e|] s1]; simpl in *.
  - destruct (Hk a s1) as [HR' HE']. split; [by eapply R_trans|done].
  - split; [done|]. intros ? [= <-]. by apply HE.
  - by split.
Qed.

(** A guarded block: inside it every caught exception is harmless. *)
Lemma keeps_try {A} (E : exn -> Prop) (m : M A) catches h :
  (∀ E' : exn -> Prop,
     (∀ e, E e -> E' e) -> (∀ e, catches e = true -> E' e) -> keeps R E' m) ->
  (∀ e, keeps R E (h e)) ->
  keeps R E (try_except m catches h).
Proof.
  intros Hm Hh s.
  destruct (Hm (fun e => catches e = false -> E e)) with (s := s) as [HR HE];
    [by intros ? ? _ | by intros ? -> |].
  unfold try_except. destruct (m s) as [[a|e|] s1]; simpl in *; [by split| |by split].
  destruct (catches e) eqn:Hc.
  - destruct (Hh e s1) as [HR' HE']. split; [by eapply R_trans|done].
  - split; [done|]. intros ? [= <-]. by apply HE.
Qed.

Lemma keeps_get_self E : keeps R E get_self.
Proof. intros s. split; [apply R_refl | done]. Qed.

Lemma keeps_get_fs E : keeps R E get_fs.
Proof. intros s. split; [apply R_refl | done]. Qed.

Lemma keeps_emit E e : is_group_export e = false -> keeps R E (emit e).
Proof. intros He s. split; [by apply R_emit | done]. Qed.

Lemma keeps_lift {A} (E : exn -> Prop) (r : exn + A) :
  (∀ e, r = inl e -> E e) -> keeps R E (lift r).
Proof.
  intros Hr. destruct r as [e|a]; [apply keeps_raise; by apply Hr | apply keeps_ret].
Qed.

Lemma keeps_call {A} (E : exn -> Prop) c (reply : Gitlab -> exn + A) :
  is_group_export (Api c) = false -> (∀ e, E e) -> keeps R E (call c reply).
Proof.
  intros Hc HE. unfold call. apply keeps_bind; [apply keeps_get_self|]. intros me.
  apply keeps_bind; [by apply keeps_emit|]. intros _. by apply keeps_lift.
Qed.

Lemma keeps_for_each {A} E (l : list A) body :
  (∀ x, keeps R E (body x)) -> keeps R E (for_each l body).
Proof.
  intros Hb. induction l as [|x l IH]; [apply keeps_ret|].
  simpl. apply keeps_bind; [apply Hb | by intros _].
Qed.

(** Inside a block guarded by [except GitlabError] or [except Exception],
    every exception is harmless once those that are no API errors are. *)
Lemma guarded_all (E E' : exn -> Prop) catches :
  (∀ e, is_GitlabError e = false -> E e) ->
  (∀ e, E e -> E' e) -> (∀ e, catches e = true -> E' e) ->
  catches = is_GitlabError ∨ catches = is_Exception ->
  ∀ e, E' e.
Proof.
  intros HE Hsub Hc [-> | ->] e; [|by apply Hc].
  destruct (is_GitlabError e) eqn:He; [by apply Hc | by apply Hsub, HE].
Qed.

(** One step of a proof that a function keeps [R]. *)
Ltac keeps_step :=
  lazymatch goal with
  | |- keeps _ _ (bind _ _) => apply keeps_bind; [|intros ?]
  | |- keeps _ _ (ret _) => apply keeps_ret
  | |- keeps _ _ (raise _) => apply keeps_raise
  | |- keeps _ _ out_of_fuel => apply keeps_out_of_fuel
  | |- keeps _ ?E (try_except _ ?c _) =>
      apply keeps_try;
      [ let E' := fresh "E'" in
        let Hsub := fresh "Hsub" in
        let Hc := fresh "Hc" in
        let Hall := fresh "Hall" in
        intros E' Hsub Hc;
        assert (∀ e, E' e) as Hall
          by first [ solve [eapply (guarded_all E E' c); eauto]
                   | solve [intros ?; apply Hsub;
                            match goal with H : ∀ e, E e |- _ => apply H end] ];
        clear Hsub Hc
      | intros ? ]
  | |- keeps _ _ get_self => apply keeps_get_self
  | |- keeps _ _ get_fs => apply keeps_get_fs
  | |- keeps _ _ (emit _) => apply keeps_emit
  | |- keeps _ _ (log _ _ _) => apply keeps_emit
  | |- keeps _ _ (sleep _) => apply keeps_emit
  | |- keeps _ _ (call _ _) => apply keeps_call
  | |- keeps _ _ (for_each _ _) => apply keeps_for_each; intros ?
  | |- keeps _ _ (match ?x with _ => _ end) => destruct x
  | |- keeps _ _ (let _ := _ in _) => cbv zeta
  end.

(** The side conditions: an event that is no request of a group export job,
    and an exception that is in the set. *)
Ltac keeps_side :=
  first [ reflexivity
        | by (intros;
              match goal with
              | H : ∀ e, ?E e |- ?E _ => apply H
              | H : ∀ e, is_GitlabError e = false -> ?E e |- ?E _ => apply H
              end) ].

Ltac keeps_run := repeat (keeps_step; try keeps_side).

Section Reading.

Variable E : exn -> Prop.
Hypothesis HE : ∀ e, is_GitlabError e = false -> E e.

Lemma keeps_getattr obj key : keeps R E (getattr obj key).
Proof. unfold getattr. keeps_run. Qed.

Lemma keeps_getitem d key : keeps R E (getitem d key).
Proof. unfold getitem. keeps_run. Qed.

Lemma keeps_as_str v : keeps R E (as_str v).
Proof. unfold as_str. keeps_run. Qed.

Lemma keeps_next {A} (it : list A) : keeps R E (next it).
Proof. unfold next. keeps_run. Qed.

Lemma keeps_open_read p : keeps R E (open_read p).
Proof. unfold open_read. keeps_run. Qed.

Lemma keeps_read_metadata_file p : keeps R E (_read_metadata_file p).
Proof. unfold _read_metadata_file, open_read. keeps_run. Qed.

Lemma keeps_project_metadata_path p :
  keeps R E (lift (__get_filepath_project_metadata p)).
Proof.
  apply keeps_lift. unfold __get_filepath_project_metadata, with_name.
  destruct p; intros e [= <-]; by apply HE.
Qed.

End Reading.

(** The import loop, inside the guarded block of its caller. *)
Lemma keeps_import_wait E (Hall : ∀ e, E e) fuel import_id :
  ∀ importer n, keeps R E (import_wait fuel import_id importer n).
Proof.
  induction fuel as [|fuel IH]; intros importer n; rewrite import_wait_eq.
  - keeps_run. by apply keeps_getattr; intros.
  - keeps_run; [by apply keeps_getattr; intros | apply IH].
Qed.

Section Importing.

Variable E : exn -> Prop.
Hypothesis HE : ∀ e, is_GitlabError e = false -> E e.

Lemma keeps_import_project_wait_done fuel import_id :
  keeps R E (__import_project_wait_done fuel import_id).
Proof.
  unfold __import_project_wait_done. keeps_run.
  - by apply keeps_import_wait.
  - by apply keeps_getattr; intros.
Qed.

Lemma keeps_import_project_upload filepath nm slug namespace :
  keeps R E (__import_project_upload filepath nm slug namespace).
Proof.
  unfold __import_project_upload. keeps_run.
  - by apply keeps_open_read.
  - by apply keeps_getitem; intros.
Qed.

Lemma keeps_import_project fuel filepath nm slug namespace :
  keeps R E (import_project fuel filepath nm slug namespace).
Proof.
  unfold import_project. keeps_run.
  - apply keeps_import_project_upload.
  - apply keeps_import_project_wait_done.
Qed.

End Importing.

Section Phases.

Variable E : exn -> Prop.
Hypothesis Hall : ∀ e, E e.

Lemma keeps_get_project key : keeps R E (get_project key).
Proof. unfold get_project. keeps_run. Qed.

Lemma keeps_get_group key : keeps R E (get_group key).
Proof. unfold get_group. keeps_run. Qed.

Lemma keeps__import_project fuel filepath namespace :
  keeps R E (_import_project fuel filepath namespace).
Proof.
  unfold _import_project. keeps_run;
    first [ by apply keeps_project_metadata_path; intros
          | by apply keeps_read_metadata_file; intros
          | by apply keeps_getitem; intros
          | apply keeps_get_project
          | by apply keeps_open_read; intros
          | by apply keeps_import_project; intros ].
Qed.

Lemma keeps_import_projects fl fuel gitlab_root :
  keeps R E (_import_projects fl fuel gitlab_root).
Proof.
  unfold _import_projects. keeps_run;
    first [ by apply keeps_read_metadata_file; intros
          | by apply keeps_getitem; intros
          | by apply keeps_as_str; intros
          | by apply keeps_lift; intros
          | apply keeps__import_project ].
Qed.

Lemma keeps_import_groups fl gitlab_root : keeps R E (_import_groups fl gitlab_root).
Proof.
  unfold _import_groups, __check_is_export_folder, __get_group_exportfile.
  keeps_run;
    first [ apply keeps_get_group
          | by apply keeps_read_metadata_file; intros
          | by apply keeps_getitem; intros
          | by apply keeps_getattr; intros
          | by apply keeps_next; intros
          | by apply keeps_open_read; intros ].
Qed.

Lemma keeps_importing fl fuel gitlab_path no_groups :
  keeps R E (importing fl fuel gitlab_path no_groups).
Proof.
  unfold importing. keeps_run;
    first [ apply keeps_import_groups | apply keeps_import_projects ].
Qed.

End Phases.

Section Writing.

(** the file system may be changed *)
Hypothesis R_put : ∀ s f, R s {| self := self s; fs := f; trace := trace s |}.

Lemma keeps_put_fs E f : keeps R E (put_fs f).
Proof. intros s. split; [apply R_put | done]. Qed.

Lemma keeps_open_write E p :
  (∀ e, is_GitlabError e = false -> E e) -> keeps R E (open_write p).
Proof. intros HE. unfold open_write. keeps_run. apply keeps_put_fs. Qed.

Lemma keeps_write E p c : keeps R E (write p c).
Proof. unfold write. keeps_run. apply keeps_put_fs. Qed.

Lemma keeps_makedirs E p : keeps R E (makedirs p).
Proof. unfold makedirs. keeps_run. apply keeps_put_fs. Qed.

Lemma keeps_write_metadata_file E obj p :
  (∀ e, is_GitlabError e = false -> E e) -> keeps R E (_write_metadata_file obj p).
Proof.
  intros HE. unfold _write_metadata_file. keeps_run;
    first [ solve [apply keeps_open_write; auto] | apply keeps_write ].
Qed.

Lemma keeps_export_wait E (Hall : ∀ e, E e) fuel project :
  ∀ exporter n, keeps R E (export_wait fuel project exporter n).
Proof.
  induction fuel as [|fuel IH]; intros exporter n; rewrite export_wait_eq;
    unfold export_refresh.
  - keeps_run. solve [apply keeps_getattr; auto].
  - keeps_run; [solve [apply keeps_getattr; auto] | apply IH].
Qed.

Lemma keeps_export_project_download E fl project output_path :
  (∀ e, is_GitlabError e = false -> E e) ->
  keeps R E (export_project_download fl project output_path).
Proof.
  intros HE. unfold export_project_download. keeps_run;
    first [ solve [apply keeps_getattr; auto]
          | solve [apply keeps_open_write; auto]
          | apply keeps_write
          | solve [apply keeps_project_metadata_path; auto]
          | solve [apply keeps_write_metadata_file; auto] ].
Qed.

Lemma keeps_export_project E fl fuel project output_path :
  (∀ e, is_GitlabError e = false -> E e) ->
  keeps R E (export_project fl fuel project output_path).
Proof.
  intros HE. unfold export_project, export_refresh. keeps_run;
    first [ solve [apply keeps_getattr; auto]
          | solve [apply keeps_export_wait; auto]
          | solve [apply keeps_export_project_download; auto] ].
Qed.

Lemma keeps_export_projects E (Hall : ∀ e, E e) fl fuel group output_path :
  keeps R E (_export_projects fl fuel group output_path).
Proof.
  unfold _export_projects. keeps_run;
    first [ solve [apply keeps_getattr; auto]
          | solve [apply keeps_export_project; auto] ].
Qed.

Lemma keeps_export_subprojects_recursive E (Hall : ∀ e, E e) fl fuel :
  ∀ group output_path,
    keeps R E (_export_subprojects_recursive fl fuel group output_path).
Proof.
  induction fuel as [|fuel IH]; intros group output_path;
    cbn [_export_subprojects_recursive]; keeps_run;
    first [ solve [apply keeps_getattr; auto]
          | solve [apply keeps_as_str; auto]
          | apply keeps_makedirs
          | solve [apply keeps_write_metadata_file; auto]
          | solve [apply keeps_export_projects; auto]
          | apply IH ].
Qed.

End Writing.

End Keeps.

(** X19: no API error ever leaves [export_project] or [import_project]: a
    remote failure in the export or the import of one project is caught
    (and logged), so that the loop over the projects goes on. *)
Theorem project_steps_catch_api_errors :
  (∀ fl fuel project output_path s e,
     fst (export_project fl fuel project output_path s) = Exn e ->
     is_GitlabError e = false)
  ∧ (∀ fuel filepath nm slug namespace s e,
       fst (import_project fuel filepath nm slug namespace s) = Exn e ->
       is_GitlabError e = false).
Proof.
  split.
  - intros fl fuel project output_path s.
    apply (keeps_export_project (fun _ _ => True)); done.
  - intros fuel filepath nm slug namespace s.
    apply (keeps_import_project (fun _ _ => True)); done.
Qed.

Lemma project_steps_catch_api_errors_witness :
  is_GitlabError (AttributeError "path_with_namespace") = false
  ∧ is_GitlabError (FileNotFoundError ["exp"; "none.tar.gz"]) = false.
Proof.
  split.
  - apply (proj1 project_steps_catch_api_errors Posix 1%nat ∅ None (Demo.start ["exp"])).
    reflexivity.
  - apply (proj2 project_steps_catch_api_errors 1%nat ["exp"; "none.tar.gz"]
             (PyStr "n") (PyStr "p") "ns" (Demo.start ["exp"])).
    reflexivity.
Defined.

(** X20: an import reads the export directory and never changes it: after
    [importing], whatever the remote instance answers and however the run
    ends, the files and directories are those from before, and so is the
    object (its export folder, its delay, its connection). *)
Theorem importing_changes_no_file fl fuel gitlab_path no_groups s :
  fs (snd (importing fl fuel gitlab_path no_groups s)) = fs s
  ∧ self (snd (importing fl fuel gitlab_path no_groups s)) = self s.
Proof.
  refine (proj1 (keeps_importing (fun s s' => fs s' = fs s ∧ self s' = self s)
                   _ _ _ (fun _ => True) (fun _ => I) fl fuel gitlab_path no_groups s));
    [done | by intros ? ? ? [-> ->] [-> ->] | done].
Qed.

(** X21: below the root group no group export job is created and no group
    archive is downloaded: the export of the projects of a group, and of its
    subgroups at every depth, makes none of these requests. *)
Theorem subgroups_get_no_export_job fl fuel group output_path s :
  (∃ evs,
     trace (snd (_export_projects fl fuel group output_path s)) = trace s ++ evs
     ∧ existsb is_group_export evs = false)
  ∧ (∃ evs,
       trace (snd (_export_subprojects_recursive fl fuel group output_path s))
       = trace s ++ evs
       ∧ existsb is_group_export evs = false).
Proof.
  set (R := fun s s' : state =>
              ∃ evs, trace s' = trace s ++ evs ∧ existsb is_group_export evs = false).
  assert (∀ s, R s s) as R_refl by (intros ?; exists []; by rewrite app_nil_r).
  assert (∀ s1 s2 s3, R s1 s2 -> R s2 s3 -> R s1 s3) as R_trans.
  { intros s1 s2 s3 (evs1 & H1 & Hn1) (evs2 & H2 & Hn2). exists (evs1 ++ evs2).
    rewrite H2, H1, app_assoc. split; [done|].
    by rewrite existsb_app, Hn1, Hn2. }
  assert (∀ s e, is_group_export e = false -> R s (after s [e])) as R_emit.
  { intros s0 e He. exists [e]. split; [done|]. simpl. by rewrite He. }
  assert (∀ s f, R s {| self := self s; fs := f; trace := trace s |}) as R_put.
  { intros s0 f. exists []. by rewrite app_nil_r. }
  split.
  - apply (proj1 (keeps_export_projects R R_refl R_trans R_emit R_put (fun _ => True)
                    (fun _ => I) fl fuel group output_path s)).
  - apply (proj1 (keeps_export_subprojects_recursive R R_refl R_trans R_emit R_put
                    (fun _ => True) (fun _ => I) fl fuel group output_path s)).
Qed.

(** X22: the export of the projects and of the subgroups leaves the object
    as it is: only the export of the root group changes the output folder. *)
Theorem export_below_root_keeps_folder fl fuel group output_path s :
  self (snd (_export_projects fl fuel group output_path s)) = self s
  ∧ self (snd (_export_subprojects_recursive fl fuel group output_path s)) = self s.
Proof.
  split.
  - refine (proj1 (keeps_export_projects (fun s s' => self s' = self s) _ _ _ _
                     (fun _ => True) (fun _ => I) fl fuel group output_path s));
      try done. by intros ? ? ? -> ->.
  - refine (proj1 (keeps_export_subprojects_recursive (fun s s' => self s' = self s)
                     _ _ _ _ (fun _ => True) (fun _ => I) fl fuel group output_path s));
      try done. by intros ? ? ? -> ->.
Qed.
